(** * Rank shop bot: the balance ledger and the order workflow

    A shallow embedding of [discord_rank_shop_bot.py]: the in-memory
    [data] dictionary, its snapshot in [data.json], and the handlers
    that read and change them (the slash commands, the shop view, the
    two modals and the approval view).

    What the Discord client does (sending a message, creating and
    assigning a role) is outside the ledger: a handler is a function
    from the bot's state to the reply it sends and the state it leaves,
    and the role calls are taken to return. *)

From Stdlib Require Import ZArith Ascii String List Lia Bool.
From stdpp Require Import base option list gmap strings pretty fin_maps.

Open Scope string_scope.
Open Scope Z_scope.

(** ** Regular expressions, as far as [HEX_RE] needs them *)

Module Re.

(** The constructs the pattern is made of. A character class is a list
    of inclusive ranges, as in [[0-9A-Fa-f]]. *)
Inductive re : Type :=
| Bol                                   (* ^ *)
| Eol                                   (* $ *)
| Chr (c : ascii)                       (* a literal character *)
| Class (ranges : list (ascii * ascii)) (* [a-bc-d] *)
| Opt (r : re)                          (* r? *)
| Rep (n : nat) (r : re)                (* r{n} *)
| Cat (r1 r2 : re).

Definition in_range (c : ascii) (rg : ascii * ascii) : bool :=
  (N.leb (N_of_ascii (fst rg)) (N_of_ascii c)
   && N.leb (N_of_ascii c) (N_of_ascii (snd rg)))%bool.

Definition in_class (ranges : list (ascii * ascii)) (c : ascii) : bool :=
  existsb (in_range c) ranges.

(** A position in the subject: how many characters lie before it and
    what follows it. *)
Definition pos : Type := nat * string.

(** [$] holds at the end of the subject and just before a newline
    that ends it. *)
Definition at_eol (rest : string) : bool :=
  match rest with
  | EmptyString => true
  | String c EmptyString => Ascii.eqb c "010"%char
  | _ => false
  end.

Fixpoint iter_from (n : nat) (f : pos -> list pos) (p : pos) : list pos :=
  match n with
  | O => [p]
  | S n' => flat_map (iter_from n' f) (f p)
  end.

(** All the positions at which a match of [r] starting at [p] can
    end (what a backtracking matcher would try in turn). *)
Fixpoint ends (r : re) (p : pos) : list pos :=
  match r with
  | Bol => if Nat.eqb (fst p) 0 then [p] else []
  | Eol => if at_eol (snd p) then [p] else []
  | Chr c =>
      match snd p with
      | String d rest => if Ascii.eqb c d then [(S (fst p), rest)] else []
      | EmptyString => []
      end
  | Class rs =>
      match snd p with
      | String d rest => if in_class rs d then [(S (fst p), rest)] else []
      | EmptyString => []
      end
  | Opt r' => ends r' p ++ [p]
  | Rep n r' => iter_from n (ends r') p
  | Cat r1 r2 => flat_map (ends r2) (ends r1 p)
  end.

Definition is_empty (s : string) : bool :=
  match s with EmptyString => true | _ => false end.

(** [pattern.fullmatch(s)]: some match starts at the beginning of
    [s] and ends at its end. *)
Definition fullmatch (r : re) (s : string) : bool :=
  existsb (fun p => is_empty (snd p)) (ends r (O, s)).

End Re.

(** The class [[0-9A-Fa-f]]. *)
Definition hex_class : list (ascii * ascii) :=
  [("0", "9"); ("A", "F"); ("a", "f")]%char.

(** [HEX_RE = re.compile(r"^#?[0-9A-Fa-f]{6}$")] *)
Definition HEX_RE : Re.re :=
  Re.Cat Re.Bol
    (Re.Cat (Re.Opt (Re.Chr "#"))
       (Re.Cat (Re.Rep 6 (Re.Class hex_class)) Re.Eol)).

(** ** The ledger: what [data] holds *)

(** [{"emoji": .., "name": .., "rank": .., "price": .., "image": ""}] *)
Record Product : Type := mkProduct {
  p_emoji : string;
  p_name : string;
  p_rank : string;
  p_price : Z;
  p_image : string
}.

(** [{"order_id": .., "user_id": .., "rank_name": .., "color": ..,
     "price": .., "status": ..}] *)
Record Order : Type := mkOrder {
  order_id : Z;
  user_id : string;
  rank_name : string;
  color : string;
  price : Z;
  status : string
}.

(** [{"balance": ..}] *)
Record UserData : Type := mkUser { balance : Z }.

(** [{"user_id": .., "amount": .., "link": ..}] *)
Record TopupLog : Type := mkTopup {
  t_user_id : string;
  t_amount : Z;
  t_link : string
}.

(** [{"products": [..], "orders": [..], "users": {..}, "topup_logs": [..]}] *)
Record Data : Type := mkData {
  products : list Product;
  orders : list Order;
  users : gmap string UserData;
  topup_logs : list TopupLog
}.

(** The three values the code writes into ["status"]. *)
Definition PENDING : string := "รออนุมัติ".
Definition APPROVED : string := "อนุมัติแล้ว".
Definition DENIED : string := "ปฏิเสธ".

#[global] Instance Product_eq_dec : EqDecision Product.
Proof. solve_decision. Defined.
#[global] Instance Order_eq_dec : EqDecision Order.
Proof. solve_decision. Defined.
#[global] Instance UserData_eq_dec : EqDecision UserData.
Proof. solve_decision. Defined.
#[global] Instance TopupLog_eq_dec : EqDecision TopupLog.
Proof. solve_decision. Defined.

(** ** JSON documents and the snapshot file *)

#[warnings="-register-all"]
Inductive json : Type :=
| JNull
| JInt (z : Z)
| JStr (s : string)
| JList (l : list json)
| JDict (kv : list (string * json)).

Definition product_json (p : Product) : json :=
  JDict [("emoji", JStr (p_emoji p)); ("name", JStr (p_name p));
         ("rank", JStr (p_rank p)); ("price", JInt (p_price p));
         ("image", JStr (p_image p))].

Definition order_json (o : Order) : json :=
  JDict [("order_id", JInt (order_id o)); ("user_id", JStr (user_id o));
         ("rank_name", JStr (rank_name o)); ("color", JStr (color o));
         ("price", JInt (price o)); ("status", JStr (status o))].

Definition user_json (u : UserData) : json :=
  JDict [("balance", JInt (balance u))].

Definition topup_json (t : TopupLog) : json :=
  JDict [("user_id", JStr (t_user_id t)); ("amount", JInt (t_amount t));
         ("link", JStr (t_link t))].

(** The document that [json.dumps(data)] writes. *)
Definition data_json (d : Data) : json :=
  JDict [("products", JList (map product_json (products d)));
         ("orders", JList (map order_json (orders d)));
         ("users", JDict (map (fun kv => (fst kv, user_json (snd kv)))
                            (map_to_list (users d))));
         ("topup_logs", JList (map topup_json (topup_logs d)))].

(** Reading a document back as a ledger: [d["k"]] on a dictionary and
    the shape each handler expects below it. *)
Fixpoint assoc (k : string) (kv : list (string * json)) : option json :=
  match kv with
  | [] => None
  | (k', v) :: rest => if String.eqb k k' then Some v else assoc k rest
  end.

Definition field (k : string) (j : json) : option json :=
  match j with JDict kv => assoc k kv | _ => None end.

Definition as_int (j : json) : option Z :=
  match j with JInt z => Some z | _ => None end.

Definition as_str (j : json) : option string :=
  match j with JStr s => Some s | _ => None end.

Definition as_list (j : json) : option (list json) :=
  match j with JList l => Some l | _ => None end.

Definition as_dict (j : json) : option (list (string * json)) :=
  match j with JDict kv => Some kv | _ => None end.

Definition json_product (j : json) : option Product :=
  e ← field "emoji" j ≫= as_str;
  n ← field "name" j ≫= as_str;
  r ← field "rank" j ≫= as_str;
  p ← field "price" j ≫= as_int;
  i ← field "image" j ≫= as_str;
  Some (mkProduct e n r p i).

Definition json_order (j : json) : option Order :=
  i ← field "order_id" j ≫= as_int;
  u ← field "user_id" j ≫= as_str;
  r ← field "rank_name" j ≫= as_str;
  c ← field "color" j ≫= as_str;
  p ← field "price" j ≫= as_int;
  s ← field "status" j ≫= as_str;
  Some (mkOrder i u r c p s).

Definition json_user (j : json) : option UserData :=
  b ← field "balance" j ≫= as_int; Some (mkUser b).

Definition json_topup (j : json) : option TopupLog :=
  u ← field "user_id" j ≫= as_str;
  a ← field "amount" j ≫= as_int;
  l ← field "link" j ≫= as_str;
  Some (mkTopup u a l).

Definition json_entry (kv : string * json) : option (string * UserData) :=
  u ← json_user (snd kv); Some (fst kv, u).

Definition json_items {A : Type} (dec : json → option A) (k : string)
    (j : json) : option (list A) :=
  l ← field k j ≫= as_list; mapM (M := option) dec l.

Definition json_users (j : json) : option (gmap string UserData) :=
  kv ← field "users" j ≫= as_dict;
  us ← mapM (M := option) json_entry kv;
  Some (list_to_map us).

Definition json_data (j : json) : option Data :=
  ps ← json_items json_product "products" j;
  os ← json_items json_order "orders" j;
  us ← json_users j;
  ts ← json_items json_topup "topup_logs" j;
  Some (mkData ps os us ts).

(** [data.json]: absent, present but not JSON, or holding a document.
    The text between [json.dumps] and [json.loads] is not modelled: the
    file is identified with the document it parses to. *)
Inductive file : Type :=
| Missing
| Corrupted
| Document (j : json).

Definition fresh : Data := mkData [] [] ∅ [].

(** [load_data()] *)
Definition load_data (f : file) : json :=
  match f with
  | Document j => j
  | Missing | Corrupted => data_json fresh
  end.

(** The bot: the ledger in memory, the snapshot on disk, and how many
    times [save_data] has run. *)
Record World : Type := mkWorld {
  data : Data;
  disk : file;
  saves : nat
}.

(** [save_data()]: the whole ledger replaces the snapshot. *)
Definition save_data (w : World) : World :=
  mkWorld (data w) (Document (data_json (data w))) (S (saves w)).

Definition with_data (d : Data) (w : World) : World :=
  mkWorld d (disk w) (saves w).

(** A process that starts on the file [f]. *)
Definition boot (f : file) : option World :=
  d ← json_data (load_data f); Some (mkWorld d f O).

(** ** The handlers *)

(** [ApprovalView(order)] keeps the very dictionary that [on_submit]
    appended to [data["orders"]]; that list only ever grows and is never
    reassigned, so the shared object is named by its position in it. *)
Record ApprovalView : Type := mkView { order_ref : nat }.

#[global] Instance ApprovalView_eq_dec : EqDecision ApprovalView.
Proof. solve_decision. Defined.

(** What a handler answers: one constructor for each message the code
    sends. [KeyError] stands for the exception of the subscript
    [data["users"][uid]] in [OrderModal.on_submit]; [DeadView] is the
    answer of the model for a position that names no order, which no
    view built by [on_submit] ever holds. *)
Inductive reply : Type :=
| NoPermission
| ProductMissing
| InsufficientFunds
| Purchased (role_name : string)
| ShowBalance (bal : Z)
| TopupRejected
| TopupDone (amount : Z)
| InvalidColor
| OrderSent (view : ApprovalView)
| OrderApproved
| OrderDenied
| DuplicateProduct
| ProductAdded
| ProductNotFound
| ProductRemoved
| BalanceAdded (amount : Z)
| BalanceRemoved (amount : Z)
| KeyError
| DeadView.

#[global] Instance reply_eq_dec : EqDecision reply.
Proof. solve_decision. Defined.

(** The object [r.json()] returns, as far as the topup modal reads it:
    [result.get("status")] and [result.get("amount", 0)]. An amount that
    is present is an integer, as the payment service documents it. *)
Record TopupResult : Type := mkResult {
  res_status : option string;
  res_amount : option Z
}.

Record HttpReply : Type := mkHttp {
  http_status : Z;
  http_json : TopupResult
}.

(** [str(interaction.user.id)] *)
Definition str (id : Z) : string := pretty id.

(** [data["users"].get(uid, {}).get("balance", 0)] *)
Definition get_balance (d : Data) (uid : string) : Z :=
  match users d !! uid with
  | Some u => balance u
  | None => 0
  end.

(** [data["users"].setdefault(uid, {"balance": 0})]: the dictionary
    after the call and the record it returns. *)
Definition setdefault (uid : string) (us : gmap string UserData)
    : gmap string UserData * UserData :=
  match us !! uid with
  | Some u => (us, u)
  | None => (<[uid := mkUser 0]> us, mkUser 0)
  end.

(** [data["users"].setdefault(uid, {"balance": 0})["balance"] += amount] *)
Definition credit (uid : string) (amount : Z) (us : gmap string UserData)
    : gmap string UserData :=
  let '(us1, u) := setdefault uid us in
  <[uid := mkUser (balance u + amount)]> us1.

Definition with_users (us : gmap string UserData) (w : World) : World :=
  with_data (mkData (products (data w)) (orders (data w)) us
               (topup_logs (data w))) w.

Definition with_products (ps : list Product) (w : World) : World :=
  with_data (mkData ps (orders (data w)) (users (data w))
               (topup_logs (data w))) w.

Definition with_orders (os : list Order) (w : World) : World :=
  with_data (mkData (products (data w)) os (users (data w))
               (topup_logs (data w))) w.

Definition with_topup_logs (ts : list TopupLog) (w : World) : World :=
  with_data (mkData (products (data w)) (orders (data w)) (users (data w))
               ts) w.

(** [self.order["status"] = s] *)
Definition set_status (s : string) (o : Order) : Order :=
  mkOrder (order_id o) (user_id o) (rank_name o) (color o) (price o) s.

(** [p["name"] == name] *)
Definition named (name : string) (p : Product) : bool :=
  String.eqb (p_name p) name.

Section Bot.

(** The environment the module reads when it is imported. *)
Variable ALLOWED_USER_ID : Z.
Variable TRUEWALLET_API_KEY : string.

(** [is_admin(user)] *)
Definition is_admin (user : Z) : bool := Z.eqb user ALLOWED_USER_ID.

(** [check_topup(slip_url)]; [service] stands for the GET request. *)
Definition check_topup (service : string → HttpReply) (slip_url : string)
    : option TopupResult :=
  if Re.is_empty TRUEWALLET_API_KEY then None
  else
    let r := service slip_url in
    if Z.eqb (http_status r) 200 then Some (http_json r) else None.

(** [ProductSelect.callback], [value] being [self.values[0]]. *)
Definition ProductSelect_callback (user : Z) (value : string) (w : World)
    : reply * World :=
  if negb (Z.eqb user ALLOWED_USER_ID) then (NoPermission, w)
  else
    match List.find (named value) (products (data w)) with
    | None => (ProductMissing, w)
    | Some product =>
        let uid := str user in
        let '(us, user_data) := setdefault uid (users (data w)) in
        if Z.ltb (balance user_data) (p_price product)
        then (InsufficientFunds, with_users us w)
        else
          let us' :=
            <[uid := mkUser (balance user_data - p_price product)]> us in
          (Purchased (p_rank product), save_data (with_users us' w))
    end.

(** [BalanceButton.callback] *)
Definition BalanceButton_callback (user : Z) (w : World) : reply * World :=
  (ShowBalance (get_balance (data w) (str user)), w).

(** [TopupModal.on_submit], [link] being [self.link.value]. *)
Definition TopupModal_on_submit (service : string → HttpReply) (user : Z)
    (link : string) (w : World) : reply * World :=
  match check_topup service link with
  | None => (TopupRejected, w)
  | Some result =>
      match res_status result with
      | Some st =>
          if String.eqb st "success" then
            let amount := default 0 (res_amount result) in
            let uid := str user in
            let w1 := with_users (credit uid amount (users (data w))) w in
            let w2 :=
              with_topup_logs
                (topup_logs (data w1) ++ [mkTopup uid amount link]) w1 in
            (TopupDone amount, save_data w2)
          else (TopupRejected, w)
      | None => (TopupRejected, w)
      end
  end.

(** [OrderModal.on_submit], [rank] and [colour] being the two text
    inputs. *)
Definition OrderModal_on_submit (user : Z) (rank colour : string)
    (w : World) : reply * World :=
  if negb (Re.fullmatch HEX_RE colour) then (InvalidColor, w)
  else
    let uid := str user in
    let bal := get_balance (data w) uid in
    let price := 50 in
    if Z.ltb bal price then (InsufficientFunds, w)
    else
      match users (data w) !! uid with
      | None => (KeyError, w)
      | Some u =>
          let w1 :=
            with_users (<[uid := mkUser (balance u - price)]>
                          (users (data w))) w in
          let order :=
            mkOrder (Z.of_nat (length (orders (data w1))) + 1) uid rank
              (if String.prefix "#" colour then colour
               else String "#" colour)
              price PENDING in
          let view := mkView (length (orders (data w1))) in
          let w2 := with_orders (orders (data w1) ++ [order]) w1 in
          (OrderSent view, save_data w2)
      end.

(** [ApprovalView.approve] *)
Definition ApprovalView_approve (v : ApprovalView) (w : World)
    : reply * World :=
  match orders (data w) !! order_ref v with
  | None => (DeadView, w)
  | Some o =>
      let w1 :=
        with_orders (<[order_ref v := set_status APPROVED o]>
                       (orders (data w))) w in
      (OrderApproved, save_data w1)
  end.

(** [ApprovalView.deny] *)
Definition ApprovalView_deny (v : ApprovalView) (w : World)
    : reply * World :=
  match orders (data w) !! order_ref v with
  | None => (DeadView, w)
  | Some o =>
      let uid := user_id o in
      let w1 := with_users (credit uid (price o) (users (data w))) w in
      let w2 :=
        with_orders (<[order_ref v := set_status DENIED o]>
                       (orders (data w1))) w1 in
      (OrderDenied, save_data w2)
  end.

(** [add_product] *)
Definition add_product (user : Z) (emoji name rank : string) (price : Z)
    (w : World) : reply * World :=
  if negb (is_admin user) then (NoPermission, w)
  else if existsb (named name) (products (data w))
  then (DuplicateProduct, w)
  else
    let w1 :=
      with_products
        (products (data w) ++ [mkProduct emoji name rank price ""]) w in
    (ProductAdded, save_data w1).

(** [remove_product] *)
Definition remove_product (user : Z) (name : string) (w : World)
    : reply * World :=
  if negb (is_admin user) then (NoPermission, w)
  else
    let before := length (products (data w)) in
    let w1 :=
      with_products
        (List.filter (fun p => negb (named name p)) (products (data w))) w in
    let w2 := save_data w1 in
    if Nat.eqb (length (products (data w2))) before
    then (ProductNotFound, w2)
    else (ProductRemoved, w2).

(** [add_balance] *)
Definition add_balance (user : Z) (target : Z) (amount : Z) (w : World)
    : reply * World :=
  if negb (is_admin user) then (NoPermission, w)
  else
    let uid := str target in
    let w1 := with_users (credit uid amount (users (data w))) w in
    (BalanceAdded amount, save_data w1).

(** [remove_balance] *)
Definition remove_balance (user : Z) (target : Z) (amount : Z) (w : World)
    : reply * World :=
  if negb (is_admin user) then (NoPermission, w)
  else
    let uid := str target in
    let '(us, u) := setdefault uid (users (data w)) in
    let bal := balance u in
    let w1 := with_users (<[uid := mkUser (Z.max 0 (bal - amount))]> us) w in
    (BalanceRemoved amount, save_data w1).

(** What can happen to the bot, one interaction at a time. *)
Inductive event : Type :=
| Select (user : Z) (value : string)
| CheckBalance (user : Z)
| Topup (service : string → HttpReply) (user : Z) (link : string)
| PlaceOrder (user : Z) (rank colour : string)
| Approve (v : ApprovalView)
| Deny (v : ApprovalView)
| AddProduct (user : Z) (emoji name rank : string) (price : Z)
| RemoveProduct (user : Z) (name : string)
| AddBalance (user target amount : Z)
| RemoveBalance (user target amount : Z).

Definition handle (e : event) (w : World) : reply * World :=
  match e with
  | Select user value => ProductSelect_callback user value w
  | CheckBalance user => BalanceButton_callback user w
  | Topup service user link => TopupModal_on_submit service user link w
  | PlaceOrder user rank colour => OrderModal_on_submit user rank colour w
  | Approve v => ApprovalView_approve v w
  | Deny v => ApprovalView_deny v w
  | AddProduct user emoji name rank price =>
      add_product user emoji name rank price w
  | RemoveProduct user name => remove_product user name w
  | AddBalance user target amount => add_balance user target amount w
  | RemoveBalance user target amount => remove_balance user target amount w
  end.

(** The state after a sequence of interactions. *)
Definition run (es : list event) (w : World) : World :=
  fold_left (fun w e => snd (handle e w)) es w.

End Bot.

(** ** Colours, in the words of the specification *)

(** A hexadecimal digit, and a string of exactly six of them. *)
Definition is_hex_digit (c : ascii) : Prop :=
  In c (list_ascii_of_string "0123456789abcdefABCDEF").

Definition six_hex_digits (s : string) : Prop :=
  String.length s = 6%nat ∧ Forall is_hex_digit (list_ascii_of_string s).

(** Six hexadecimal digits, optionally prefixed with [#]. *)
Definition valid_colour (s : string) : Prop :=
  six_hex_digits s ∨ ∃ body, s = String "#" body ∧ six_hex_digits body.

(** The canonical form: a leading [#] and the six digits. *)
Definition canonical (body : string) : string := String "#" body.

(** ** Auxiliary definitions *)

(** The rest of [s] once [n] characters of the class are read. *)
Fixpoint skip_class (rs : list (ascii * ascii)) (n : nat) (s : string)
    : option string :=
  match n with
  | O => Some s
  | S n' =>
      match s with
      | String c rest => if Re.in_class rs c then skip_class rs n' rest else None
      | EmptyString => None
      end
  end.

(** The amount a topup is accepted for: the key is configured, the
    service answered 200, and the object it returned has the status
    "success"; the amount is the one the object carries, 0 when it
    carries none. *)
Definition verified_amount (TRUEWALLET_API_KEY : string)
    (service : string → HttpReply) (link : string) : option Z :=
  if decide (TRUEWALLET_API_KEY = "") then None
  else if decide (http_status (service link) = 200) then
    if decide (res_status (http_json (service link)) = Some "success")
    then Some (default 0 (res_amount (http_json (service link))))
    else None
  else None.

(** ** What keeps balances above zero *)

Definition nonneg (us : gmap string UserData) : Prop :=
  ∀ uid u, us !! uid = Some u → 0 ≤ balance u.

Definition balances_nonneg (d : Data) : Prop := nonneg (users d).

Definition prices_nonneg (d : Data) : Prop :=
  Forall (fun o => 0 ≤ price o) (orders d).

Definition sound (d : Data) : Prop := balances_nonneg d ∧ prices_nonneg d.

(** The amounts that come from outside: the one an administrator types
    into [add_balance], and the one a verified topup is accepted for. *)
Definition amount_nonneg (TRUEWALLET_API_KEY : string) (e : event) : Prop :=
  match e with
  | AddBalance _ _ amount => 0 ≤ amount
  | Topup service _ link =>
      match verified_amount TRUEWALLET_API_KEY service link with
      | Some amount => 0 ≤ amount
      | None => True
      end
  | _ => True
  end.

(** ** Worlds to try the handlers on *)

(** The bot of a first run: no snapshot file, nothing saved yet. In the
    worlds below the administrator is user 7. *)
Definition start : World := mkWorld fresh Missing 0.

(** The administrator has credited 50 to user 42. *)
Definition funded : World := snd (add_balance 7 7 42 50 start).

(** User 42 orders the rank "Shadow" in colour ff66cc, and the order is
    denied. *)
Definition placed : World :=
  snd (OrderModal_on_submit 42 "Shadow" "ff66cc" funded).

Definition the_order : Order := mkOrder 1 "42" "Shadow" "#ff66cc" 50 PENDING.

Definition denied : World := snd (ApprovalView_deny (mkView 0) placed).

(** A shop with one product, priced 100, and no account yet. *)
Definition vip_shop : World :=
  snd (add_product 7 7 "gem" "VIP" "VIP-Role" 100 start).

(** Two answers of the payment service. *)
Definition success_without_amount (link : string) : HttpReply :=
  mkHttp 200 (mkResult (Some "success") None).

Definition success_negative (link : string) : HttpReply :=
  mkHttp 200 (mkResult (Some "success") (Some (-5))).

(** A credit, an order, two refusals of it, a topup without amount and
    a debit beyond the balance. *)
Definition busy_day : list event :=
  [AddBalance 7 42 50; PlaceOrder 42 "Shadow" "ff66cc"; Deny (mkView 0);
   Deny (mkView 0); Topup success_without_amount 42 "slip";
   RemoveBalance 7 42 500].

(** ** The shop view *)

(** [discord.SelectOption(label=.., description=.., emoji=..)] *)
Record SelectOption : Type := mkOption {
  label : string;
  description : string;
  emoji : string
}.

(** The options [ProductSelect.__init__] builds from the catalogue. *)
Definition ProductSelect_options (d : Data) : list SelectOption :=
  map (fun p =>
         mkOption (p_name p) ("ราคา " ++ pretty (p_price p) ++ " บาท")
           (p_emoji p))
    (products d).

(** What a click on a button of the shop view leads to: a modal is
    shown, or a message is sent. *)
Inductive click : Type :=
| SendsModal (title : string)
| Answers (r : reply).

(** [OrderButton.callback] *)
Definition OrderButton_callback (ALLOWED_USER_ID user : Z) : click :=
  if negb (is_admin ALLOWED_USER_ID user) then Answers NoPermission
  else SendsModal "สั่งออเดอร์ยศ".

(** [TopupButton.callback] *)
Definition TopupButton_callback (user : Z) : click :=
  SendsModal "เติมเงินผ่านซองทรู".

(** An order made through the shop view: the button, then the modal it
    shows. *)
Definition shop_order (ALLOWED_USER_ID user : Z) (rank colour : string)
    (w : World) : reply * World :=
  match OrderButton_callback ALLOWED_USER_ID user with
  | SendsModal _ => OrderModal_on_submit user rank colour w
  | Answers r => (r, w)
  end.

(** ** What the ledger keeps *)

(** No two products of the catalogue have the same name. *)
Definition names_unique (d : Data) : Prop :=
  NoDup (map p_name (products d)).

(** An order as [on_submit] writes it and the buttons rewrite it. *)
Definition order_wf (o : Order) : Prop :=
  price o = 50 ∧
  (∃ body, color o = canonical body ∧ six_hex_digits body) ∧
  (status o = PENDING ∨ status o = APPROVED ∨ status o = DENIED) ∧
  ∃ id, user_id o = str id.

Definition orders_wf (d : Data) : Prop := Forall order_wf (orders d).

(** The order at position [i] has the number [i + 1]. *)
Definition ids_sequential (d : Data) : Prop :=
  ∀ i o, orders d !! i = Some o → order_id o = Z.of_nat i + 1.

(** Two ledgers that no handler can tell apart: the same catalogue,
    orders and topup logs, and the same balance for every user id. *)
Definition same_ledger (d1 d2 : Data) : Prop :=
  products d1 = products d2 ∧ orders d1 = orders d2 ∧
  topup_logs d1 = topup_logs d2 ∧
  ∀ uid, get_balance d1 uid = get_balance d2 uid.

(** What a restart would load is the ledger in memory, as far as any
    handler can tell. *)
Definition durable (w : World) : Prop :=
  ∃ d, json_data (load_data (disk w)) = Some d ∧ same_ledger d (data w).

(** A catalogue with one product at 100 and its buyer holding 150. *)
Definition vip_buyer : World :=
  run 7 "key" [AddProduct 7 "gem" "VIP" "VIP-Role" 100; AddBalance 7 7 150]
    start.

(** ** The group finder's switch ([test.py])

    The control panel of the second script: the flag [running], the list
    [tasks], and the three requests that read and write them. A task is
    named by the number of tasks created before it. What a worker does
    between two looks at [running] (a request to the groups service, a
    webhook message, a sleep) is outside this model; the workers never
    write [running] or [tasks]. *)

Module Finder.

Record State : Type := mkState {
  running : bool;
  tasks : list nat;
  created : nat;
  cancelled : gset nat
}.

(** [running = False] and [tasks = []], as the module sets them. *)
Definition init : State := mkState false [] 0 ∅.

(** [start_finder]; [range(5)] new tasks. *)
Definition start_finder (s : State) : string * State :=
  if running s then ("Already running", s)
  else
    ("Finder started",
     mkState true (seq (created s) 5) (created s + 5) (cancelled s)).

(** [stop_finder] up to its [await asyncio.sleep(1.5)] ... *)
Definition stop_begin (s : State) : State :=
  mkState false (tasks s) (created s) (cancelled s).

(** ... and from there on: [task.cancel()] for every task in [tasks]. *)
Definition stop_end (s : State) : string * State :=
  ("Finder stopped",
   mkState (running s) (tasks s) (created s)
     (cancelled s ∪ list_to_set (tasks s))).

(** [stop_finder] when nothing else is served during its pause. *)
Definition stop_finder (s : State) : string * State :=
  stop_end (stop_begin s).

(** The text of [handle_status]. *)
Definition handle_status (s : State) : string :=
  "Running: " ++ (if running s then "True" else "False").

(** Requests served one after the other. *)
Inductive request : Type := Start | Stop | Status.

Definition serve (r : request) (s : State) : string * State :=
  match r with
  | Start => start_finder s
  | Stop => stop_finder s
  | Status => (handle_status s, s)
  end.

Definition serve_all (rs : list request) (s : State) : State :=
  fold_left (fun s r => snd (serve r s)) rs s.

(** What requests served one after the other keep true. *)
Definition tidy (s : State) : Prop :=
  (∀ t, t ∈ cancelled s ↔
        (t < (if running s then created s - 5 else created s))%nat) ∧
  (tasks s = [] ∧ created s = 0%nat ∧ running s = false ∨
   tasks s = seq (created s - 5) 5 ∧ (5 ≤ created s)%nat).

(** What [resp.json()] can return. (A number with a fraction is not
    represented; the three fields read below are booleans, objects or
    null in the answers of the groups service.) *)
#[warnings="-register-all"]
Inductive value : Type :=
| VNull
| VBool (b : bool)
| VInt (z : Z)
| VStr (s : string)
| VList (l : list value)
| VDict (kv : list (string * value)).

(** Python's truth value of such an object. *)
Definition truthy (v : value) : bool :=
  match v with
  | VNull => false
  | VBool b => b
  | VInt z => negb (Z.eqb z 0)
  | VStr s => negb (Re.is_empty s)
  | VList l => match l with [] => false | _ => true end
  | VDict kv => match kv with [] => false | _ => true end
  end.

(** [d.get(k)]: the value under the key, [None] without it. *)
Fixpoint get (k : string) (kv : list (string * value)) : option value :=
  match kv with
  | [] => None
  | (k', v) :: rest => if String.eqb k k' then Some v else get k rest
  end.

(** [x is None], for the result of [d.get(k)]. *)
Definition is_None (o : option value) : bool :=
  match o with
  | None | Some VNull => true
  | Some _ => false
  end.

(** Whether the caller's [if] takes the result of [is_group_available]
    as true. [fetched] is what [fetch_json] returned, [None] when it
    raised (a status that is an error, a timeout, a body that is not
    JSON); [.get] on an answer that is no dictionary raises as well, and
    every exception ends in [return False]. *)
Definition is_group_available (fetched : option value) : bool :=
  match fetched with
  | Some (VDict group_data) =>
      (default false (truthy <$> get "publicEntryAllowed" group_data)
       && is_None (get "owner" group_data)
       && negb (default true (truthy <$> get "isLocked" group_data)))%bool
  | Some _ | None => false
  end.

End Finder.

(** ** The pattern against the words *)

Example HEX_RE_plain : Re.fullmatch HEX_RE "ff66cc" = true.
Proof. reflexivity. Qed.

Example HEX_RE_hash : Re.fullmatch HEX_RE "#FF66cc" = true.
Proof. reflexivity. Qed.

Example HEX_RE_short : Re.fullmatch HEX_RE "#ff66c" = false.
Proof. reflexivity. Qed.

Example HEX_RE_not_hex : Re.fullmatch HEX_RE "gg66cc" = false.
Proof. reflexivity. Qed.

Example HEX_RE_newline : Re.fullmatch HEX_RE ("ff66cc" ++ String "010" "") = false.
Proof. reflexivity. Qed.

Lemma in_class_hex c : Re.in_class hex_class c = true ↔ is_hex_digit c.
Proof.
  unfold is_hex_digit.
  destruct c as [[] [] [] [] [] [] [] []]; vm_compute; split; intros H;
    first [ reflexivity
          | discriminate H
          | repeat (first [left; reflexivity | right]); fail
          | exfalso; intuition discriminate ].
Qed.

Lemma iter_class rs n k s :
  Re.iter_from n (Re.ends (Re.Class rs)) (k, s) =
  match skip_class rs n s with
  | Some rest => [((n + k)%nat, rest)]
  | None => []
  end.
Proof.
  revert k s. induction n as [|n IH]; intros k s; simpl; [done|].
  destruct s as [|c rest]; simpl; [done|].
  destruct (Re.in_class rs c); simpl; [|done].
  rewrite IH, app_nil_r. destruct (skip_class rs n rest); [|done].
  by rewrite Nat.add_succ_r.
Qed.

Lemma skip_class_all rs n s :
  skip_class rs n s = Some "" ↔
  String.length s = n ∧
  Forall (fun c => Re.in_class rs c = true) (list_ascii_of_string s).
Proof.
  revert s. induction n as [|n IH]; intros s; simpl.
  - destruct s; simpl; split.
    + intros _. split; [done | constructor].
    + done.
    + discriminate.
    + intros [? _]. discriminate.
  - destruct s as [|c rest]; simpl.
    + split; [discriminate | intros [? _]; discriminate].
    + destruct (Re.in_class rs c) eqn:Hc.
      * rewrite IH. split.
        -- intros [<- H]. split; [done | by constructor].
        -- intros [Hl H]. inversion H; subst. split; [congruence | done].
      * split; [discriminate |].
        intros [_ H]. inversion H; subst. congruence.
Qed.

Lemma skip_hex_six s : skip_class hex_class 6 s = Some "" ↔ six_hex_digits s.
Proof.
  rewrite skip_class_all. unfold six_hex_digits.
  split; intros [Hl H]; (split; [done|]);
    eapply Forall_impl; eauto; intros c; apply in_class_hex.
Qed.

Lemma ends_cat r1 r2 p :
  Re.ends (Re.Cat r1 r2) p = flat_map (Re.ends r2) (Re.ends r1 p).
Proof. reflexivity. Qed.

Lemma ends_rep n r p : Re.ends (Re.Rep n r) p = Re.iter_from n (Re.ends r) p.
Proof. reflexivity. Qed.

Lemma ends_opt r p : Re.ends (Re.Opt r) p = (Re.ends r p ++ [p])%list.
Proof. reflexivity. Qed.

Lemma ends_eol p :
  Re.ends Re.Eol p = if Re.at_eol (snd p) then [p] else [].
Proof. reflexivity. Qed.

(** Where the six digits and the [$] lead from a position. *)
Lemma ends_digits k s :
  existsb (fun p => Re.is_empty (snd p))
    (Re.ends (Re.Cat (Re.Rep 6 (Re.Class hex_class)) Re.Eol) (k, s)) = true
  ↔ six_hex_digits s.
Proof.
  rewrite <- skip_hex_six.
  rewrite ends_cat, ends_rep, iter_class.
  destruct (skip_class hex_class 6 s) as [rest|]; simpl.
  - rewrite app_nil_r. destruct rest as [|c [|d rest]]; simpl.
    + done.
    + destruct (Ascii.eqb c "010"); simpl; split; discriminate.
    + split; discriminate.
  - split; discriminate.
Qed.

Lemma six_hex_no_hash body : six_hex_digits (String "#" body) → False.
Proof.
  intros [_ H]. simpl in H. inversion H as [|? ? Hc _]; subst.
  apply in_class_hex in Hc. discriminate.
Qed.

Lemma ends_chr c k s :
  Re.ends (Re.Chr c) (k, s) =
  match s with
  | String d rest => if Ascii.eqb c d then [(S k, rest)] else []
  | EmptyString => []
  end.
Proof. reflexivity. Qed.

(** [HEX_RE.fullmatch] accepts exactly the valid colours. *)
Lemma fullmatch_valid s : Re.fullmatch HEX_RE s = true ↔ valid_colour s.
Proof.
  unfold Re.fullmatch, HEX_RE, valid_colour. fold hex_class.
  rewrite ends_cat. change (Re.ends Re.Bol (0%nat, s)) with [(0%nat, s)].
  cbn [flat_map]. rewrite app_nil_r.
  rewrite ends_cat, ends_opt, flat_map_app, existsb_app, orb_true_iff.
  cbn [flat_map]. rewrite app_nil_r.
  rewrite (ends_digits 0 s), ends_chr.
  destruct s as [|c rest].
  - cbn [flat_map existsb]. split.
    + intros [H|H]; [discriminate | by left].
    + intros [H|(body & H & _)]; [by right | discriminate].
  - destruct (Ascii.eqb "#" c) eqn:Hc.
    + apply Ascii.eqb_eq in Hc. subst c.
      cbn [flat_map]. rewrite app_nil_r, ends_digits. split.
      * intros [H|H]; [right; eauto | by left].
      * intros [H|(body & [= <-] & H)]; [by right | by left].
    + cbn [flat_map existsb]. split.
      * intros [H|H]; [discriminate | by left].
      * intros [H|(body & [= -> _] & _)]; [by right |].
        by rewrite Ascii.eqb_refl in Hc.
Qed.

Lemma fullmatch_invalid s : ¬ valid_colour s → Re.fullmatch HEX_RE s = false.
Proof.
  intros H. destruct (Re.fullmatch HEX_RE s) eqn:E; [|done].
  by apply fullmatch_valid in E.
Qed.

(** ** Accounts *)

Lemma lookup_credit uid amount (us : gmap string UserData) uid' :
  credit uid amount us !! uid' =
  if decide (uid = uid')
  then Some (mkUser (default 0 (balance <$> us !! uid) + amount))
  else us !! uid'.
Proof.
  unfold credit, setdefault.
  destruct (us !! uid) as [u|] eqn:Hu; simpl; case_decide; subst;
    simplify_map_eq; done.
Qed.

Lemma get_balance_lookup d uid :
  get_balance d uid = default 0 (balance <$> users d !! uid).
Proof. unfold get_balance. by destruct (users d !! uid). Qed.

Lemma get_balance_credit w uid amount uid' :
  get_balance (data (with_users (credit uid amount (users (data w))) w)) uid' =
  if decide (uid = uid')
  then get_balance (data w) uid' + amount
  else get_balance (data w) uid'.
Proof.
  rewrite !get_balance_lookup. simpl. rewrite lookup_credit.
  case_decide; by subst.
Qed.

Example funded_balance : get_balance (data funded) "42" = 50.
Proof. reflexivity. Qed.

(** ** Placing an order *)

(** C5. A colour that is not six hexadecimal digits, with or without a
    leading [#] (wrong length, or a character that is not a hexadecimal
    digit), makes [OrderModal.on_submit] answer [InvalidColor] and leave
    the bot as it was: the same orders, the same balances, the same
    snapshot on disk and no call of [save_data]. *)
Theorem invalid_colour_rejected (user : Z) (rank colour : string) (w : World) :
  ¬ valid_colour colour →
  OrderModal_on_submit user rank colour w = (InvalidColor, w).
Proof.
  intros H. unfold OrderModal_on_submit.
  by rewrite (fullmatch_invalid _ H).
Qed.

Lemma invalid_colour_rejected_witness :
  ¬ valid_colour "gg66cc" ∧
  OrderModal_on_submit 42 "Shadow" "gg66cc" funded = (InvalidColor, funded).
Proof.
  assert (H : ¬ valid_colour "gg66cc").
  { intros H. apply fullmatch_valid in H. vm_compute in H. discriminate. }
  split; [exact H | exact (invalid_colour_rejected 42 "Shadow" "gg66cc" funded H)].
Defined.

(** C4. With a valid colour and a balance below the flat fee of 50,
    [OrderModal.on_submit] answers [InsufficientFunds] and leaves the bot
    as it was: no order is appended, no balance changes and [save_data]
    is not called. *)
Theorem poor_user_rejected (user : Z) (rank colour : string) (w : World) :
  valid_colour colour →
  get_balance (data w) (str user) < 50 →
  OrderModal_on_submit user rank colour w = (InsufficientFunds, w).
Proof.
  intros Hc Hb. unfold OrderModal_on_submit.
  apply fullmatch_valid in Hc. rewrite Hc. simpl.
  by apply Z.ltb_lt in Hb as ->.
Qed.

Lemma poor_user_rejected_witness :
  valid_colour "ff66cc" ∧ get_balance (data start) (str 42) < 50 ∧
  OrderModal_on_submit 42 "Shadow" "ff66cc" start = (InsufficientFunds, start).
Proof.
  assert (Hc : valid_colour "ff66cc") by (by apply fullmatch_valid).
  assert (Hb : get_balance (data start) (str 42) < 50) by (vm_compute; done).
  split; [exact Hc | split; [exact Hb |]].
  exact (poor_user_rejected 42 "Shadow" "ff66cc" start Hc Hb).
Defined.

(** The order that [on_submit] builds for a user who can pay. *)
Lemma on_submit_accepts (user : Z) (rank colour : string) (w : World) :
  valid_colour colour →
  (50 ≤ get_balance (data w) (str user))%Z →
  ∃ u, users (data w) !! str user = Some u ∧
  OrderModal_on_submit user rank colour w =
  let w1 := with_users (<[str user := mkUser (balance u - 50)]>
                          (users (data w))) w in
  let order :=
    mkOrder (Z.of_nat (length (orders (data w))) + 1) (str user) rank
      (if String.prefix "#" colour then colour else String "#" colour)
      50 PENDING in
  (OrderSent (mkView (length (orders (data w)))),
   save_data (with_orders (orders (data w) ++ [order]) w1)).
Proof.
  intros Hc Hb. unfold OrderModal_on_submit.
  apply fullmatch_valid in Hc. rewrite Hc. simpl.
  assert (Hlt : (get_balance (data w) (str user) <? 50) = false)
    by (apply Z.ltb_ge; lia).
  rewrite Hlt. unfold get_balance in Hb.
  destruct (users (data w) !! str user) as [u|]; [|lia].
  by exists u.
Qed.

Lemma prefix_hash s :
  String.prefix "#" s =
  match s with
  | String c _ => Ascii.eqb "#" c
  | EmptyString => false
  end.
Proof.
  destruct s as [|c rest]; [done|]. cbn [String.prefix].
  destruct (ascii_dec "#" c) as [<-|Hne].
  - rewrite Ascii.eqb_refl. by destruct rest.
  - symmetry. by apply Ascii.eqb_neq.
Qed.

(** C8. From a user who holds the flat fee, six hexadecimal digits are
    accepted with and without a leading [#], and both spellings store
    the same order, whose colour is the canonical [#] followed by the
    six digits. *)
Theorem colour_normalised (user : Z) (rank body : string) (w : World) :
  six_hex_digits body →
  (50 ≤ get_balance (data w) (str user))%Z →
  ∃ v w' o,
    OrderModal_on_submit user rank body w = (OrderSent v, w') ∧
    OrderModal_on_submit user rank (String "#" body) w = (OrderSent v, w') ∧
    orders (data w') = (orders (data w) ++ [o])%list ∧
    color o = canonical body.
Proof.
  intros Hs Hb.
  destruct (on_submit_accepts user rank body w) as (u & Hu & E1);
    [by left | done |].
  destruct (on_submit_accepts user rank (String "#" body) w) as (u' & Hu' & E2);
    [right; eauto | done |].
  assert (u' = u) as -> by congruence.
  rewrite prefix_hash in E1, E2.
  assert (Hp : match body with
               | String c _ => Ascii.eqb "#" c
               | EmptyString => false
               end = false).
  { destruct body as [|c rest]; [done|].
    destruct (Ascii.eqb_spec "#" c) as [<-|]; [|done].
    by destruct (six_hex_no_hash rest). }
  rewrite Hp in E1. rewrite Ascii.eqb_refl in E2.
  eexists _, _, _. split; [exact E1|].
  split; [exact E2|]. split; reflexivity.
Qed.

Lemma colour_normalised_witness :
  six_hex_digits "ff66cc" ∧ (50 ≤ get_balance (data funded) (str 42))%Z ∧
  ∃ v w' o,
    OrderModal_on_submit 42 "Shadow" "ff66cc" funded = (OrderSent v, w') ∧
    OrderModal_on_submit 42 "Shadow" "#ff66cc" funded = (OrderSent v, w') ∧
    orders (data w') = (orders (data funded) ++ [o])%list ∧
    color o = "#ff66cc".
Proof.
  assert (Hs : six_hex_digits "ff66cc") by (by apply skip_hex_six).
  assert (Hb : (50 ≤ get_balance (data funded) (str 42))%Z) by (vm_compute; discriminate).
  split; [exact Hs | split; [exact Hb |]].
  exact (colour_normalised 42 "Shadow" "ff66cc" funded Hs Hb).
Defined.

(** When [on_submit] answers with a view, this is what it did. *)
Lemma on_submit_sent (user : Z) (rank colour : string) (w0 w : World)
    (v : ApprovalView) :
  OrderModal_on_submit user rank colour w0 = (OrderSent v, w) →
  ∃ u c,
    users (data w0) !! str user = Some u ∧ 50 ≤ balance u ∧
    v = mkView (length (orders (data w0))) ∧
    w = save_data
          (with_orders
             (orders (data w0) ++
              [mkOrder (Z.of_nat (length (orders (data w0))) + 1) (str user)
                 rank c 50 PENDING])
             (with_users (<[str user := mkUser (balance u - 50)]>
                            (users (data w0))) w0)).
Proof.
  unfold OrderModal_on_submit, get_balance.
  destruct (Re.fullmatch HEX_RE colour); simpl; [|discriminate].
  destruct (users (data w0) !! str user) as [u|] eqn:Hu.
  - destruct (Z.ltb_spec (balance u) 50); [discriminate|].
    intros [= <- <-]. by eexists u, _.
  - simpl. discriminate.
Qed.

(** ** Approving and denying *)

Lemma approve_eq (v : ApprovalView) (w : World) (o : Order) :
  orders (data w) !! order_ref v = Some o →
  ApprovalView_approve v w =
  (OrderApproved,
   save_data (with_orders (<[order_ref v := set_status APPROVED o]>
                             (orders (data w))) w)).
Proof. intros H. unfold ApprovalView_approve. by rewrite H. Qed.

Lemma deny_eq (v : ApprovalView) (w : World) (o : Order) :
  orders (data w) !! order_ref v = Some o →
  ApprovalView_deny v w =
  (OrderDenied,
   save_data
     (with_orders (<[order_ref v := set_status DENIED o]> (orders (data w)))
        (with_users (credit (user_id o) (price o) (users (data w))) w))).
Proof. intros H. unfold ApprovalView_deny. by rewrite H. Qed.

Lemma deny_balance (v : ApprovalView) (w : World) (o : Order) (uid : string) :
  orders (data w) !! order_ref v = Some o →
  get_balance (data (snd (ApprovalView_deny v w))) uid =
  if decide (user_id o = uid)
  then get_balance (data w) uid + price o
  else get_balance (data w) uid.
Proof.
  intros H. rewrite (deny_eq v w o H). cbn [snd].
  rewrite <- get_balance_credit. reflexivity.
Qed.

Lemma deny_status (v : ApprovalView) (w : World) (o : Order) :
  orders (data w) !! order_ref v = Some o →
  orders (data (snd (ApprovalView_deny v w))) !! order_ref v =
  Some (set_status DENIED o).
Proof.
  intros H. rewrite (deny_eq v w o H). cbn.
  apply list_lookup_insert_eq. by eapply lookup_lt_Some.
Qed.

(** The orders only grow, and an order keeps its place, its user and
    its price whatever happens to the bot afterwards: at most its status
    is rewritten. So the position held by a view keeps naming the
    dictionary the view was built with. *)
Lemma set_status_same (o : Order) : set_status (status o) o = o.
Proof. by destruct o. Qed.

Lemma set_status_twice (s s' : string) (o : Order) :
  set_status s (set_status s' o) = set_status s o.
Proof. reflexivity. Qed.

Lemma handle_keeps_order (ALLOWED_USER_ID : Z) (key : string) (e : event)
    (w : World) (i : nat) (o : Order) :
  orders (data w) !! i = Some o →
  ∃ s, orders (data (snd (handle ALLOWED_USER_ID key e w))) !! i
       = Some (set_status s o).
Proof.
  intros Ho.
  assert (Hsame : ∃ s, orders (data w) !! i = Some (set_status s o))
    by (exists (status o); by rewrite set_status_same).
  assert (Hins : ∀ j s' o', orders (data w) !! j = Some o' →
            ∃ s, <[j := set_status s' o']> (orders (data w)) !! i
                 = Some (set_status s o)).
  { intros j s' o' Hj. destruct (decide (j = i)) as [->|Hne].
    - exists s'. rewrite list_lookup_insert_eq by (by eapply lookup_lt_Some).
      congruence.
    - by rewrite list_lookup_insert_ne. }
  destruct e; cbn [handle].
  - unfold ProductSelect_callback.
    destruct (negb _); [done|]. destruct (find _ _); [|done].
    destruct (setdefault _ _). by destruct (_ <? _).
  - done.
  - unfold TopupModal_on_submit.
    destruct (check_topup _ _ _) as [result|]; [|done].
    destruct (res_status result) as [st|]; [|done].
    by destruct (String.eqb st "success").
  - unfold OrderModal_on_submit.
    destruct (negb _); [done|]. cbn zeta. destruct (_ <? _); [done|].
    destruct (users (data w) !! str user); [|done].
    cbn. exists (status o). rewrite set_status_same.
    by apply lookup_app_l_Some.
  - unfold ApprovalView_approve.
    destruct (orders (data w) !! order_ref v) as [o'|] eqn:Hv; [|done].
    cbn. by eapply Hins.
  - unfold ApprovalView_deny.
    destruct (orders (data w) !! order_ref v) as [o'|] eqn:Hv; [|done].
    cbn. by eapply Hins.
  - unfold add_product. destruct (negb _); [done|].
    by destruct (existsb _ _).
  - unfold remove_product. destruct (negb _); [done|]. cbn.
    by destruct (_ =? _)%nat.
  - unfold add_balance. by destruct (negb _).
  - unfold remove_balance. destruct (negb _); [done|].
    by destruct (setdefault _ _).
Qed.

Lemma run_keeps_order (ALLOWED_USER_ID : Z) (key : string) (es : list event)
    (w : World) (i : nat) (o : Order) :
  orders (data w) !! i = Some o →
  ∃ s, orders (data (run ALLOWED_USER_ID key es w)) !! i
       = Some (set_status s o).
Proof.
  revert w o. induction es as [|e es IH]; intros w o Ho.
  - exists (status o). by rewrite set_status_same.
  - change (run ALLOWED_USER_ID key (e :: es) w)
      with (run ALLOWED_USER_ID key es (snd (handle ALLOWED_USER_ID key e w))).
    destruct (handle_keeps_order ALLOWED_USER_ID key e w i o Ho) as [s Hs].
    destruct (IH _ _ Hs) as [s' Hs']. exists s'.
    by rewrite Hs', set_status_twice.
Qed.

Lemma on_submit_order (user : Z) (rank colour : string) (w0 w : World)
    (v : ApprovalView) :
  OrderModal_on_submit user rank colour w0 = (OrderSent v, w) →
  ∃ c, orders (data w) !! order_ref v =
       Some (mkOrder (Z.of_nat (order_ref v) + 1) (str user) rank c 50 PENDING).
Proof.
  intros H. apply on_submit_sent in H as (u & c & Hu & Hb & -> & ->).
  exists c. cbn. by rewrite lookup_app_r, Nat.sub_diag by lia.
Qed.

(** A view handed out by [on_submit] never goes dead, and [on_submit]
    never reaches the subscript that could raise. *)
Lemma view_stays_alive (ALLOWED_USER_ID : Z) (key : string) (user : Z)
    (rank colour : string) (w0 w : World) (v : ApprovalView)
    (es : list event) :
  OrderModal_on_submit user rank colour w0 = (OrderSent v, w) →
  ∃ o, orders (data (run ALLOWED_USER_ID key es w)) !! order_ref v = Some o ∧
       user_id o = str user ∧ price o = 50 ∧
       order_id o = Z.of_nat (order_ref v) + 1.
Proof.
  intros H. apply on_submit_order in H as [c Ho].
  destruct (run_keeps_order ALLOWED_USER_ID key es _ _ _ Ho) as [s Hs].
  rewrite Hs. eexists. split; [reflexivity|]. by cbn.
Qed.

Lemma on_submit_no_key_error (user : Z) (rank colour : string) (w : World) :
  fst (OrderModal_on_submit user rank colour w) ≠ KeyError.
Proof.
  unfold OrderModal_on_submit, get_balance.
  destruct (negb _); [done|]. cbn zeta.
  destruct (users (data w) !! str user) as [u|]; [|done].
  by destruct (_ <? _).
Qed.

(** C3. Denying a pending order answers [OrderDenied], marks the order
    denied and adds exactly its price to the balance of the user who
    placed it, nobody else's balance moving; and when the order has just
    been placed, that user's balance is back to what it was immediately
    before [on_submit] created the order. *)
Theorem deny_refunds (v : ApprovalView) (w : World) (o : Order) :
  orders (data w) !! order_ref v = Some o →
  status o = PENDING →
  let w' := snd (ApprovalView_deny v w) in
  fst (ApprovalView_deny v w) = OrderDenied ∧
  get_balance (data w') (user_id o) =
    get_balance (data w) (user_id o) + price o ∧
  (∀ uid, uid ≠ user_id o →
     get_balance (data w') uid = get_balance (data w) uid) ∧
  orders (data w') !! order_ref v = Some (set_status DENIED o) ∧
  (∀ w0 user rank colour,
     OrderModal_on_submit user rank colour w0 = (OrderSent v, w) →
     user_id o = str user ∧
     get_balance (data w') (str user) = get_balance (data w0) (str user)).
Proof.
  intros Ho Hst w'. subst w'. repeat split.
  - by rewrite (deny_eq v w o Ho).
  - rewrite (deny_balance v w o _ Ho). by rewrite decide_True.
  - intros uid Hne. rewrite (deny_balance v w o _ Ho). by rewrite decide_False.
  - by apply deny_status.
  - apply on_submit_sent in H as (u & c & Hu & Hb & -> & ->).
    cbn in Ho. rewrite lookup_app_r, Nat.sub_diag in Ho by lia.
    by injection Ho as <-.
  - apply on_submit_sent in H as (u & c & Hu & Hb & -> & ->).
    pose proof Ho as Ho'.
    cbn in Ho'. rewrite lookup_app_r, Nat.sub_diag in Ho' by lia.
    injection Ho' as <-.
    rewrite (deny_balance _ _ _ _ Ho). cbn [user_id price].
    rewrite decide_True by done.
    rewrite !get_balance_lookup. cbn. rewrite lookup_insert_eq, Hu. cbn. lia.
Qed.

Example placed_order : orders (data placed) = [the_order].
Proof. reflexivity. Qed.

Example placed_balance : get_balance (data placed) "42" = 0.
Proof. reflexivity. Qed.

Example denied_order : orders (data denied) = [set_status DENIED the_order].
Proof. reflexivity. Qed.

Lemma deny_refunds_witness :
  orders (data placed) !! 0%nat = Some the_order ∧
  status the_order = PENDING ∧
  get_balance (data denied) "42" = get_balance (data placed) "42" + 50 ∧
  get_balance (data denied) "42" = get_balance (data funded) "42".
Proof.
  split; [reflexivity|]. split; [reflexivity|].
  destruct (deny_refunds (mkView 0) placed the_order eq_refl eq_refl)
    as (_ & Hb & _ & _ & Hr).
  split; [exact Hb|].
  exact (proj2 (Hr funded 42 "Shadow" "ff66cc" eq_refl)).
Defined.

(** However much later the order is denied, the refund is the flat fee
    and goes to the user who placed it. *)
Lemma deny_later_refunds (ALLOWED_USER_ID : Z) (key : string) (user : Z)
    (rank colour : string) (w0 w : World) (v : ApprovalView)
    (es : list event) :
  OrderModal_on_submit user rank colour w0 = (OrderSent v, w) →
  get_balance
    (data (snd (ApprovalView_deny v (run ALLOWED_USER_ID key es w))))
    (str user)
  = get_balance (data (run ALLOWED_USER_ID key es w)) (str user) + 50.
Proof.
  intros H.
  destruct (view_stays_alive ALLOWED_USER_ID key _ _ _ _ _ _ es H)
    as (o & Ho & Hu & Hp & _).
  rewrite (deny_balance _ _ _ _ Ho), Hu, Hp. by rewrite decide_True.
Qed.

(** C1, as the specification has it, fails: denying the denied order
    again is answered [OrderDenied] like the first time and refunds the
    price a second time, and approving it afterwards turns the denied
    order into an approved one. *)
Lemma deny_twice_refunds_twice :
  status <$> orders (data denied) !! 0%nat = Some DENIED ∧
  get_balance (data denied) "42" = 50 ∧
  fst (ApprovalView_deny (mkView 0) denied) = OrderDenied ∧
  get_balance (data (snd (ApprovalView_deny (mkView 0) denied))) "42" = 100 ∧
  snd (ApprovalView_deny (mkView 0) denied) ≠ denied ∧
  fst (ApprovalView_approve (mkView 0) denied) = OrderApproved ∧
  status <$> orders (data (snd (ApprovalView_approve (mkView 0) denied))) !! 0%nat
    = Some APPROVED ∧
  snd (ApprovalView_approve (mkView 0) denied) ≠ denied.
Proof.
  repeat split.
  - intros H. apply (f_equal saves) in H. vm_compute in H. discriminate.
  - intros H. apply (f_equal saves) in H. vm_compute in H. discriminate.
Qed.

(** C1, amended. Neither button looks at the status the order already
    has. On an order that is approved or denied, [approve] answers
    [OrderApproved], writes the approved status, leaves every balance
    alone and saves; [deny] answers [OrderDenied], writes the denied
    status, adds the order's price to its user's balance once more and
    saves. *)
Theorem finalized_order_not_guarded (v : ApprovalView) (w : World) (o : Order) :
  orders (data w) !! order_ref v = Some o →
  status o = APPROVED ∨ status o = DENIED →
  (fst (ApprovalView_approve v w) = OrderApproved ∧
   orders (data (snd (ApprovalView_approve v w))) !! order_ref v
     = Some (set_status APPROVED o) ∧
   users (data (snd (ApprovalView_approve v w))) = users (data w) ∧
   saves (snd (ApprovalView_approve v w)) = S (saves w)) ∧
  (fst (ApprovalView_deny v w) = OrderDenied ∧
   orders (data (snd (ApprovalView_deny v w))) !! order_ref v
     = Some (set_status DENIED o) ∧
   get_balance (data (snd (ApprovalView_deny v w))) (user_id o)
     = get_balance (data w) (user_id o) + price o ∧
   saves (snd (ApprovalView_deny v w)) = S (saves w)).
Proof.
  intros Ho _. split.
  - rewrite (approve_eq v w o Ho). cbn. repeat split.
    apply list_lookup_insert_eq. by eapply lookup_lt_Some.
  - split; [by rewrite (deny_eq v w o Ho)|].
    split; [by apply deny_status|].
    split; [|by rewrite (deny_eq v w o Ho)].
    rewrite (deny_balance v w o _ Ho). by rewrite decide_True.
Qed.

Lemma finalized_order_not_guarded_witness :
  orders (data denied) !! 0%nat = Some (set_status DENIED the_order) ∧
  (status (set_status DENIED the_order) = APPROVED ∨
   status (set_status DENIED the_order) = DENIED) ∧
  get_balance (data (snd (ApprovalView_deny (mkView 0) denied))) "42"
    = get_balance (data denied) "42" + 50 ∧
  saves (snd (ApprovalView_approve (mkView 0) denied)) = S (saves denied).
Proof.
  split; [reflexivity|]. split; [right; reflexivity|].
  destruct (finalized_order_not_guarded (mkView 0) denied
              (set_status DENIED the_order) eq_refl (or_intror eq_refl))
    as [(_ & _ & _ & Hs) (_ & _ & Hb & _)].
  split; [exact Hb | exact Hs].
Defined.

(** ** The catalogue *)

Lemma filter_keeps_all {A : Type} (f : A → bool) (l : list A) :
  existsb (fun x => negb (f x)) l = false → List.filter f l = l.
Proof.
  induction l as [|x l IH]; simpl; [done|].
  destruct (f x); simpl; [|discriminate].
  intros H. by rewrite IH.
Qed.

Lemma filter_drops_some {A : Type} (f : A → bool) (l : list A) :
  existsb (fun x => negb (f x)) l = true →
  (length (List.filter f l) < length l)%nat.
Proof.
  induction l as [|x l IH]; simpl; [discriminate|].
  pose proof (List.filter_length_le f l).
  destruct (f x); simpl; [|lia].
  intros H'. specialize (IH H'). lia.
Qed.

(** C6, as the specification has it, fails: asked to remove a product
    the catalogue does not hold, the administrator's command answers
    [ProductNotFound] and has called [save_data] all the same, which
    here creates the snapshot file. *)
Lemma remove_missing_product_saves :
  fst (remove_product 7 7 "VIP" start) = ProductNotFound ∧
  saves start = 0%nat ∧
  saves (snd (remove_product 7 7 "VIP" start)) = 1%nat ∧
  disk start = Missing ∧
  disk (snd (remove_product 7 7 "VIP" start)) = Document (data_json fresh).
Proof. repeat split. Qed.

(** C6, amended. For the administrator, [remove_product] always ends by
    saving the ledger. With no product of that exact name it answers
    [ProductNotFound] and the ledger in memory is unchanged; with one it
    answers [ProductRemoved], no product of that name remains and the
    products of other names are kept in order. Orders, users and topup
    logs are not touched either way. *)
Theorem remove_product_saves (ALLOWED_USER_ID user : Z) (name : string)
    (w : World) :
  is_admin ALLOWED_USER_ID user = true →
  saves (snd (remove_product ALLOWED_USER_ID user name w)) = S (saves w) ∧
  disk (snd (remove_product ALLOWED_USER_ID user name w)) =
    Document (data_json (data (snd (remove_product ALLOWED_USER_ID user name w)))) ∧
  products (data (snd (remove_product ALLOWED_USER_ID user name w))) =
    List.filter (fun p => negb (named name p)) (products (data w)) ∧
  orders (data (snd (remove_product ALLOWED_USER_ID user name w))) =
    orders (data w) ∧
  users (data (snd (remove_product ALLOWED_USER_ID user name w))) =
    users (data w) ∧
  topup_logs (data (snd (remove_product ALLOWED_USER_ID user name w))) =
    topup_logs (data w) ∧
  if existsb (named name) (products (data w))
  then fst (remove_product ALLOWED_USER_ID user name w) = ProductRemoved ∧
       existsb (named name)
         (products (data (snd (remove_product ALLOWED_USER_ID user name w))))
       = false
  else fst (remove_product ALLOWED_USER_ID user name w) = ProductNotFound ∧
       data (snd (remove_product ALLOWED_USER_ID user name w)) = data w.
Proof.
  intros Hadm. unfold remove_product. rewrite Hadm. cbn [negb].
  set (keep := List.filter _ _).
  assert (Hk : keep = List.filter (fun p => negb (named name p))
                        (products (data w))) by reflexivity.
  assert (Hex : existsb (fun p => negb (negb (named name p)))
                  (products (data w))
                = existsb (named name) (products (data w))).
  { induction (products (data w)) as [|p l IH]; simpl; [done|].
    by rewrite negb_involutive, IH. }
  destruct (existsb (named name) (products (data w))) eqn:E.
  - pose proof (filter_drops_some _ _ Hex) as Hlt. rewrite <- Hk in Hlt.
    cbn. destruct (Nat.eqb_spec (length keep) (length (products (data w))));
      [lia|]. cbn. repeat split.
    rewrite Hk. clear.
    induction (products (data w)) as [|p l IH]; [done|]. simpl.
    destruct (named name p) eqn:Hp; simpl; [done|]. by rewrite Hp.
  - pose proof (filter_keeps_all _ _ Hex) as Heq. rewrite <- Hk in Heq.
    cbn. rewrite Heq, Nat.eqb_refl. cbn. repeat split.
    by destruct w as [[] ? ?].
Qed.

Lemma remove_product_saves_witness :
  is_admin 7 7 = true ∧
  saves (snd (remove_product 7 7 "VIP" start)) = S (saves start) ∧
  fst (remove_product 7 7 "VIP" start) = ProductNotFound ∧
  data (snd (remove_product 7 7 "VIP" start)) = data start.
Proof.
  split; [reflexivity|].
  destruct (remove_product_saves 7 7 "VIP" start eq_refl)
    as (Hs & _ & _ & _ & _ & _ & Hr).
  split; [exact Hs | exact Hr].
Defined.

(** ** Topups *)

(** C7, as the specification has it, fails: a success response that
    carries no amount is accepted, and the record appended for it has the
    amount 0; one that carries -5 is accepted too, is recorded with -5
    and lowers the balance. *)
Lemma topup_records_nonpositive_amount :
  TopupModal_on_submit "key" success_without_amount 42 "slip" funded =
    (TopupDone 0,
     snd (TopupModal_on_submit "key" success_without_amount 42 "slip" funded)) ∧
  topup_logs
    (data (snd (TopupModal_on_submit "key" success_without_amount 42 "slip"
                  funded)))
    = [mkTopup "42" 0 "slip"] ∧
  topup_logs
    (data (snd (TopupModal_on_submit "key" success_negative 42 "slip" funded)))
    = [mkTopup "42" (-5) "slip"] ∧
  get_balance
    (data (snd (TopupModal_on_submit "key" success_negative 42 "slip" funded)))
    "42" = 45.
Proof. repeat split. Qed.

Lemma check_topup_verified (key : string) (service : string → HttpReply)
    (link : string) :
  verified_amount key service link =
  match check_topup key service link with
  | Some result =>
      match res_status result with
      | Some st =>
          if String.eqb st "success"
          then Some (default 0 (res_amount result))
          else None
      | None => None
      end
  | None => None
  end.
Proof.
  unfold verified_amount, check_topup.
  destruct key as [|c key]; simpl; [done|].
  case_decide as Hs.
  - rewrite Hs. simpl.
    destruct (res_status (http_json (service link))) as [st|]; [|done].
    destruct (String.eqb_spec st "success") as [->|Hne]; [done|].
    case_decide; [congruence | done].
  - apply Z.eqb_neq in Hs. by rewrite Hs.
Qed.

(** C7, amended. [TopupModal.on_submit] appends a record and credits the
    user exactly when the topup is verified (key configured, answer 200,
    status "success"). The record then holds the user, the link and the
    amount credited, which is the amount of the response, or 0 when the
    response has none; the amount is not required to be positive. Every
    other answer of the service is rejected and changes nothing. *)
Theorem topup_records_what_it_credits (key : string)
    (service : string → HttpReply) (user : Z) (link : string) (w : World) :
  match verified_amount key service link with
  | Some amount =>
      fst (TopupModal_on_submit key service user link w) = TopupDone amount ∧
      topup_logs (data (snd (TopupModal_on_submit key service user link w))) =
        (topup_logs (data w) ++ [mkTopup (str user) amount link])%list ∧
      (∀ uid,
         get_balance (data (snd (TopupModal_on_submit key service user link w)))
           uid =
         if decide (str user = uid)
         then get_balance (data w) uid + amount
         else get_balance (data w) uid) ∧
      saves (snd (TopupModal_on_submit key service user link w)) = S (saves w)
  | None =>
      TopupModal_on_submit key service user link w = (TopupRejected, w)
  end.
Proof.
  rewrite check_topup_verified. unfold TopupModal_on_submit.
  destruct (check_topup key service link) as [result|]; [|done].
  destruct (res_status result) as [st|]; [|done].
  destruct (String.eqb st "success"); [|done].
  cbn [fst snd]. repeat split.
  intros uid. rewrite <- get_balance_credit. reflexivity.
Qed.

(** ** The snapshot *)

Lemma mapM_map_Some {A B : Type} (f : A → option B) (g : B → A) (l : list B) :
  (∀ x, f (g x) = Some x) → mapM f (map g l) = Some l.
Proof.
  intros H. induction l as [|x l IH]; simpl; [done|].
  by rewrite H, IH.
Qed.

Lemma json_product_inv p : json_product (product_json p) = Some p.
Proof. by destruct p. Qed.

Lemma json_order_inv o : json_order (order_json o) = Some o.
Proof. by destruct o. Qed.

Lemma json_topup_inv t : json_topup (topup_json t) = Some t.
Proof. by destruct t. Qed.

Lemma json_entry_inv kv : json_entry (fst kv, user_json (snd kv)) = Some kv.
Proof. by destruct kv as [k []]. Qed.

Lemma json_data_inv d : json_data (data_json d) = Some d.
Proof.
  unfold json_data, json_items, json_users, data_json. cbn.
  rewrite (mapM_map_Some _ _ _ json_product_inv). cbn.
  rewrite (mapM_map_Some _ _ _ json_order_inv). cbn.
  rewrite (mapM_map_Some json_entry
             (fun kv => (fst kv, user_json (snd kv))) _ json_entry_inv). cbn.
  rewrite (mapM_map_Some _ _ _ json_topup_inv). cbn.
  rewrite list_to_map_to_list. by destruct d.
Qed.

(** C9. What [save_data] writes, [load_data] reads back as the ledger
    that was in memory: the same products, orders, users with their
    balances, and topup logs; a process started on that file holds that
    ledger. This holds of every state, so of every reachable one. *)
Theorem save_then_load (w : World) :
  json_data (load_data (disk (save_data w))) = Some (data w) ∧
  boot (disk (save_data w)) =
    Some (mkWorld (data w) (Document (data_json (data w))) 0).
Proof.
  unfold boot.
  change (load_data (disk (save_data w))) with (data_json (data w)).
  by rewrite json_data_inv.
Qed.

(** ** Buying from the catalogue *)

(** The administrator adds the product "VIP" at 100, holds 150 and buys
    it: one product in the catalogue, 50 left. *)
Example purchase_scenario :
  length (products (data (run 7 "key"
            [AddProduct 7 "gem" "VIP" "VIP-Role" 100; AddBalance 7 7 150;
             Select 7 "VIP"] start))) = 1%nat ∧
  get_balance (data (run 7 "key"
            [AddProduct 7 "gem" "VIP" "VIP-Role" 100; AddBalance 7 7 150;
             Select 7 "VIP"] start)) "7" = 50 ∧
  handle 7 "key" (Select 7 "VIP")
    (run 7 "key" [AddProduct 7 "gem" "VIP" "VIP-Role" 100; AddBalance 7 7 150]
       start)
  = (Purchased "VIP-Role",
     run 7 "key"
       [AddProduct 7 "gem" "VIP" "VIP-Role" 100; AddBalance 7 7 150;
        Select 7 "VIP"] start).
Proof. repeat split. Qed.

(** C10. When the permitted user picks a product whose price is above
    the balance, [ProductSelect.callback] answers [InsufficientFunds],
    debits nothing and does not save; but [setdefault] has already run,
    so a user without an account now has one with balance 0 in the
    [users] dictionary, which is in memory only. The balance shown stays
    0; a user who never tried to buy has no such record. *)
Theorem failed_purchase_creates_account (ALLOWED_USER_ID : Z)
    (value : string) (w : World) (product : Product) :
  List.find (named value) (products (data w)) = Some product →
  get_balance (data w) (str ALLOWED_USER_ID) < p_price product →
  fst (ProductSelect_callback ALLOWED_USER_ID ALLOWED_USER_ID value w)
    = InsufficientFunds ∧
  saves (snd (ProductSelect_callback ALLOWED_USER_ID ALLOWED_USER_ID value w))
    = saves w ∧
  disk (snd (ProductSelect_callback ALLOWED_USER_ID ALLOWED_USER_ID value w))
    = disk w ∧
  (∀ uid,
     get_balance
       (data (snd (ProductSelect_callback ALLOWED_USER_ID ALLOWED_USER_ID
                     value w))) uid
     = get_balance (data w) uid) ∧
  users (data (snd (ProductSelect_callback ALLOWED_USER_ID ALLOWED_USER_ID
                      value w)))
    = match users (data w) !! str ALLOWED_USER_ID with
      | Some _ => users (data w)
      | None => <[str ALLOWED_USER_ID := mkUser 0]> (users (data w))
      end ∧
  is_Some (users (data (snd (ProductSelect_callback ALLOWED_USER_ID
                               ALLOWED_USER_ID value w)))
           !! str ALLOWED_USER_ID) ∧
  products (data (snd (ProductSelect_callback ALLOWED_USER_ID ALLOWED_USER_ID
                         value w))) = products (data w) ∧
  orders (data (snd (ProductSelect_callback ALLOWED_USER_ID ALLOWED_USER_ID
                       value w))) = orders (data w) ∧
  topup_logs (data (snd (ProductSelect_callback ALLOWED_USER_ID
                           ALLOWED_USER_ID value w))) = topup_logs (data w).
Proof.
  intros Hfind Hlow. unfold ProductSelect_callback.
  rewrite Z.eqb_refl. cbn [negb].
  change (fun p => String.eqb (p_name p) value) with (named value).
  rewrite Hfind. unfold setdefault, get_balance in *.
  destruct (users (data w) !! str ALLOWED_USER_ID) as [u|] eqn:Hu.
  - apply Z.ltb_lt in Hlow. rewrite Hlow. cbn. rewrite Hu.
    repeat split; eauto.
  - cbn [balance]. apply Z.ltb_lt in Hlow. rewrite Hlow. cbn.
    rewrite lookup_insert_eq.
    repeat split; eauto.
    intros uid. destruct (decide (str ALLOWED_USER_ID = uid)) as [<-|Hne].
    + by rewrite lookup_insert_eq, Hu.
    + by rewrite lookup_insert_ne.
Qed.

Lemma failed_purchase_creates_account_witness :
  List.find (named "VIP") (products (data vip_shop))
    = Some (mkProduct "gem" "VIP" "VIP-Role" 100 "") ∧
  get_balance (data vip_shop) (str 7) < 100 ∧
  users (data vip_shop) !! "7" = None ∧
  fst (ProductSelect_callback 7 7 "VIP" vip_shop) = InsufficientFunds ∧
  users (data (snd (ProductSelect_callback 7 7 "VIP" vip_shop)))
    = <[str 7 := mkUser 0]> (users (data vip_shop)) ∧
  saves (snd (ProductSelect_callback 7 7 "VIP" vip_shop)) = saves vip_shop.
Proof.
  split; [reflexivity|]. split; [reflexivity|]. split; [reflexivity|].
  destruct (failed_purchase_creates_account 7 "VIP" vip_shop
              (mkProduct "gem" "VIP" "VIP-Role" 100 "") eq_refl eq_refl)
    as (Hr & Hs & _ & _ & Hu & _).
  split; [exact Hr|]. split; [exact Hu | exact Hs].
Defined.

(** ** Balances never go below zero, amounts permitting *)

Lemma sound_fresh : sound fresh.
Proof.
  split; [|constructor].
  intros uid u H. cbn in H. by rewrite lookup_empty in H.
Qed.

Lemma insert_nonneg (us : gmap string UserData) uid b :
  nonneg us → 0 ≤ b → nonneg (<[uid := mkUser b]> us).
Proof.
  intros H Hb k u. destruct (decide (uid = k)) as [->|Hne].
  - rewrite lookup_insert_eq. by intros [= <-].
  - rewrite lookup_insert_ne by done. apply H.
Qed.

Lemma credit_nonneg (us : gmap string UserData) uid amount :
  nonneg us → 0 ≤ amount → nonneg (credit uid amount us).
Proof.
  intros H Ha k u. rewrite lookup_credit. case_decide; [|apply H].
  intros [= <-]. cbn. destruct (us !! uid) as [u0|] eqn:Hu; cbn; [|lia].
  specialize (H _ _ Hu). lia.
Qed.

Lemma setdefault_nonneg (us : gmap string UserData) uid :
  nonneg us →
  nonneg (fst (setdefault uid us)) ∧ 0 ≤ balance (snd (setdefault uid us)).
Proof.
  intros H. unfold setdefault. destruct (us !! uid) as [u0|] eqn:Hu; cbn.
  - split; [done | by eapply H].
  - split; [by apply insert_nonneg | done].
Qed.

(** One interaction keeps the ledger sound. *)
Lemma handle_sound (ALLOWED_USER_ID : Z) (key : string) (e : event)
    (w : World) :
  sound (data w) → amount_nonneg key e →
  sound (data (snd (handle ALLOWED_USER_ID key e w))).
Proof.
  unfold sound, balances_nonneg, prices_nonneg.
  intros [Hb Hp] He. destruct e; cbn [handle].
  - (* ProductSelect.callback *)
    unfold ProductSelect_callback.
    destruct (negb _); [done|]. destruct (find _ _) as [product|]; [|done].
    destruct (setdefault_nonneg (users (data w)) (str user) Hb) as [H1 H2].
    destruct (setdefault _ _) as [us u]. cbn [fst snd] in H1, H2.
    destruct (Z.ltb_spec (balance u) (p_price product)); cbn; split; try done.
    apply insert_nonneg; [done | lia].
  - done.
  - (* TopupModal.on_submit *)
    cbn in He. rewrite check_topup_verified in He.
    unfold TopupModal_on_submit.
    destruct (check_topup key service link) as [result|]; [|done].
    destruct (res_status result) as [st|]; [|done].
    destruct (String.eqb st "success"); [|done].
    cbn. split; [|done]. by apply credit_nonneg.
  - (* OrderModal.on_submit *)
    unfold OrderModal_on_submit.
    destruct (negb _); [done|]. cbn zeta.
    destruct (Z.ltb_spec (get_balance (data w) (str user)) 50); [done|].
    unfold get_balance in *.
    destruct (users (data w) !! str user) as [u|] eqn:Hu; [|done].
    cbn. split.
    + apply insert_nonneg; [done | lia].
    + apply Forall_app. split; [done|]. by repeat constructor.
  - (* ApprovalView.approve *)
    unfold ApprovalView_approve.
    destruct (orders (data w) !! order_ref v) as [o|] eqn:Ho; [|done].
    cbn. split; [done|]. apply Forall_insert; [done|].
    cbn. by eapply (Forall_lookup_1 _ _ _ _ Hp).
  - (* ApprovalView.deny *)
    unfold ApprovalView_deny.
    destruct (orders (data w) !! order_ref v) as [o|] eqn:Ho; [|done].
    pose proof (Forall_lookup_1 _ _ _ _ Hp Ho) as Hprice. cbn in Hprice.
    cbn. split.
    + by apply credit_nonneg.
    + by apply Forall_insert.
  - (* add_product *)
    unfold add_product. destruct (negb _); [done|].
    by destruct (existsb _ _).
  - (* remove_product *)
    unfold remove_product. destruct (negb _); [done|]. cbn.
    by destruct (_ =? _)%nat.
  - (* add_balance *)
    unfold add_balance. destruct (negb _); [done|]. cbn. split; [|done].
    by apply credit_nonneg.
  - (* remove_balance *)
    unfold remove_balance. destruct (negb _); [done|].
    destruct (setdefault_nonneg (users (data w)) (str target) Hb) as [H1 H2].
    destruct (setdefault _ _) as [us u]. cbn [fst snd] in H1, H2.
    cbn. split; [|done]. apply insert_nonneg; [done | lia].
Qed.

Lemma run_sound (ALLOWED_USER_ID : Z) (key : string) (es : list event)
    (w : World) :
  sound (data w) → Forall (amount_nonneg key) es →
  sound (data (run ALLOWED_USER_ID key es w)).
Proof.
  revert w. induction es as [|e es IH]; intros w Hw Hes; [done|].
  inversion Hes; subst. cbn. apply IH; [|done]. by apply handle_sound.
Qed.

Lemma remove_balance_clamps (ALLOWED_USER_ID user target amount : Z)
    (w : World) :
  is_admin ALLOWED_USER_ID user = true →
  get_balance (data (snd (remove_balance ALLOWED_USER_ID user target amount w)))
    (str target)
  = Z.max 0 (get_balance (data w) (str target) - amount).
Proof.
  intros Hadm. unfold remove_balance, setdefault, get_balance.
  rewrite Hadm. cbn [negb].
  destruct (users (data w) !! str target) as [u|]; cbn;
    by rewrite lookup_insert_eq.
Qed.

(** C2, as the specification has it, fails: [add_balance] takes any
    integer, and crediting -5 to a user without an account completes,
    answers as for any credit and leaves the balance at -5. *)
Lemma negative_credit_goes_below_zero :
  fst (add_balance 7 7 42 (-5) start) = BalanceAdded (-5) ∧
  get_balance (data (snd (add_balance 7 7 42 (-5) start))) "42" = -5 ∧
  saves (snd (add_balance 7 7 42 (-5) start)) = 1%nat.
Proof. repeat split. Qed.

(** C2, amended. Starting from a ledger whose balances and order prices
    are not negative (the empty ledger is one), and as long as no
    negative amount is passed to [add_balance] or reported by the payment
    service, every balance is a non-negative integer after any sequence of
    interactions: purchase, order, approval, refund, topup, credit,
    administrative debit, catalogue changes. The administrative debit
    leaves max(0, balance - amount). The code itself does not check the
    amounts of credits and topups. *)
Theorem balances_stay_nonneg (ALLOWED_USER_ID : Z) (key : string)
    (es : list event) (w : World) :
  sound (data w) →
  Forall (amount_nonneg key) es →
  balances_nonneg (data (run ALLOWED_USER_ID key es w)) ∧
  ∀ target amount,
    get_balance
      (data (snd (remove_balance ALLOWED_USER_ID ALLOWED_USER_ID target amount
                    (run ALLOWED_USER_ID key es w))))
      (str target)
    = Z.max 0 (get_balance (data (run ALLOWED_USER_ID key es w)) (str target)
               - amount).
Proof.
  intros Hw Hes. split.
  - by apply run_sound.
  - intros target amount. apply remove_balance_clamps.
    unfold is_admin. apply Z.eqb_refl.
Qed.

Lemma balances_stay_nonneg_witness :
  sound (data start) ∧ Forall (amount_nonneg "key") busy_day ∧
  balances_nonneg (data (run 7 "key" busy_day start)) ∧
  get_balance (data (run 7 "key" busy_day start)) "42" = 0.
Proof.
  assert (Hes : Forall (amount_nonneg "key") busy_day).
  { repeat constructor; vm_compute; discriminate. }
  split; [exact sound_fresh|]. split; [exact Hes|].
  split; [|reflexivity].
  exact (proj1 (balances_stay_nonneg 7 "key" busy_day start sound_fresh Hes)).
Defined.

(** ** More on the catalogue *)

Lemma named_true (name : string) (p : Product) :
  named name p = true ↔ p_name p = name.
Proof. unfold named. apply String.eqb_eq. Qed.

Lemma existsb_named (name : string) (l : list Product) :
  existsb (named name) l = true ↔ In name (map p_name l).
Proof.
  rewrite existsb_exists, in_map_iff. split.
  - intros (p & Hp & Hn). apply named_true in Hn. eauto.
  - intros (p & Hn & Hp). exists p. by rewrite named_true.
Qed.

Lemma existsb_named_false (name : string) (l : list Product) :
  existsb (named name) l = false ↔ ¬ In name (map p_name l).
Proof.
  rewrite <- existsb_named. destruct (existsb (named name) l); split;
    try done; intros H; by destruct H.
Qed.

Lemma find_named_fresh (name : string) (l : list Product) (p : Product) :
  ¬ In name (map p_name l) → p_name p = name →
  List.find (named name) (l ++ [p]) = Some p.
Proof.
  intros Hl Hp. induction l as [|q l IH]; simpl.
  - by rewrite (proj2 (named_true name p) Hp).
  - destruct (named name q) eqn:Hq.
    + apply named_true in Hq. destruct Hl. by left.
    + apply IH. intros H. apply Hl. by right.
Qed.

Lemma filter_other_names (name : string) (l : list Product) :
  ¬ In name (map p_name l) →
  List.filter (fun p => negb (named name p)) l = l.
Proof.
  intros H. apply filter_keeps_all.
  apply existsb_named_false in H. rewrite <- H. clear H.
  induction l as [|p l IH]; simpl; [done|].
  by rewrite negb_involutive, IH.
Qed.

(** X1. A second product under a name the catalogue already has is
    refused: the administrator's [add_product] answers
    [DuplicateProduct] and leaves the bot as it was, nothing saved. *)
Theorem add_product_duplicate (ALLOWED_USER_ID user : Z)
    (emoji name rank : string) (price : Z) (w : World) :
  is_admin ALLOWED_USER_ID user = true →
  In name (map p_name (products (data w))) →
  add_product ALLOWED_USER_ID user emoji name rank price w
  = (DuplicateProduct, w).
Proof.
  intros Hadm Hin. unfold add_product. rewrite Hadm. cbn [negb].
  by rewrite (proj2 (existsb_named _ _) Hin).
Qed.

Lemma add_product_duplicate_witness :
  is_admin 7 7 = true ∧
  In "VIP" (map p_name (products (data vip_shop))) ∧
  add_product 7 7 "star" "VIP" "Other-Role" 5 vip_shop
  = (DuplicateProduct, vip_shop).
Proof.
  assert (Hin : In "VIP" (map p_name (products (data vip_shop))))
    by (left; reflexivity).
  split; [reflexivity|]. split; [exact Hin|].
  exact (add_product_duplicate 7 7 "star" "VIP" "Other-Role" 5 vip_shop
           eq_refl Hin).
Defined.

(** X2. Under a new name the administrator's [add_product] puts the
    product at the end of the catalogue with an empty image, touches
    nothing else, saves once, and from then on the select finds that
    product under its name and offers it as its last option. *)
Theorem add_product_found (ALLOWED_USER_ID user : Z)
    (emoji name rank : string) (price : Z) (w : World) :
  is_admin ALLOWED_USER_ID user = true →
  ¬ In name (map p_name (products (data w))) →
  fst (add_product ALLOWED_USER_ID user emoji name rank price w)
    = ProductAdded ∧
  products (data (snd (add_product ALLOWED_USER_ID user emoji name rank price w)))
    = (products (data w) ++ [mkProduct emoji name rank price ""])%list ∧
  orders (data (snd (add_product ALLOWED_USER_ID user emoji name rank price w)))
    = orders (data w) ∧
  users (data (snd (add_product ALLOWED_USER_ID user emoji name rank price w)))
    = users (data w) ∧
  topup_logs
    (data (snd (add_product ALLOWED_USER_ID user emoji name rank price w)))
    = topup_logs (data w) ∧
  saves (snd (add_product ALLOWED_USER_ID user emoji name rank price w))
    = S (saves w) ∧
  List.find (named name)
    (products
       (data (snd (add_product ALLOWED_USER_ID user emoji name rank price w))))
    = Some (mkProduct emoji name rank price "") ∧
  ProductSelect_options
    (data (snd (add_product ALLOWED_USER_ID user emoji name rank price w)))
    = (ProductSelect_options (data w) ++
       [mkOption name ("ราคา " ++ str price ++ " บาท") emoji])%list.
Proof.
  intros Hadm Hnew. unfold add_product. rewrite Hadm. cbn [negb].
  rewrite (proj2 (existsb_named_false _ _) Hnew). cbn.
  repeat split.
  - by apply find_named_fresh.
  - unfold ProductSelect_options. cbn. by rewrite map_app.
Qed.

Lemma add_product_found_witness :
  is_admin 7 7 = true ∧
  ¬ In "VIP" (map p_name (products (data start))) ∧
  List.find (named "VIP")
    (products (data (snd (add_product 7 7 "gem" "VIP" "VIP-Role" 100 start))))
    = Some (mkProduct "gem" "VIP" "VIP-Role" 100 "") ∧
  saves (snd (add_product 7 7 "gem" "VIP" "VIP-Role" 100 start)) = 1%nat.
Proof.
  assert (Hnew : ¬ In "VIP" (map p_name (products (data start))))
    by (intros []).
  split; [reflexivity|]. split; [exact Hnew|].
  destruct (add_product_found 7 7 "gem" "VIP" "VIP-Role" 100 start eq_refl Hnew)
    as (_ & _ & _ & _ & _ & Hs & Hf & _).
  split; [exact Hf | exact Hs].
Defined.

Lemma NoDup_names_filter (f : Product → bool) (l : list Product) :
  NoDup (map p_name l) → NoDup (map p_name (List.filter f l)).
Proof.
  induction l as [|p l IH]; simpl; [done|].
  intros H. apply NoDup_cons in H as [Hp Hl].
  destruct (f p); simpl; [|by apply IH].
  apply NoDup_cons. split; [|by apply IH].
  intros Hin. apply Hp. apply list_elem_of_In in Hin.
  apply list_elem_of_In. apply in_map_iff in Hin as (q & Hq & Hin).
  apply filter_In in Hin as [Hin _]. apply in_map_iff. eauto.
Qed.

Lemma NoDup_names_snoc (l : list Product) (p : Product) :
  NoDup (map p_name l) → ¬ In (p_name p) (map p_name l) →
  NoDup (map p_name (l ++ [p])).
Proof.
  intros Hl Hp. rewrite map_app. apply NoDup_app. split; [done|].
  split; [|apply NoDup_singleton].
  intros x Hx Hx'. apply list_elem_of_In in Hx.
  cbn in Hx'. apply list_elem_of_singleton in Hx'. by subst.
Qed.

Lemma handle_names_unique (ALLOWED_USER_ID : Z) (key : string) (e : event)
    (w : World) :
  names_unique (data w) →
  names_unique (data (snd (handle ALLOWED_USER_ID key e w))).
Proof.
  unfold names_unique. intros H. destruct e; cbn [handle].
  - unfold ProductSelect_callback.
    destruct (negb _); [done|]. destruct (find _ _); [|done].
    destruct (setdefault _ _). by destruct (_ <? _).
  - done.
  - unfold TopupModal_on_submit.
    destruct (check_topup _ _ _) as [result|]; [|done].
    destruct (res_status result) as [st|]; [|done].
    by destruct (String.eqb st "success").
  - unfold OrderModal_on_submit.
    destruct (negb _); [done|]. cbn zeta. destruct (_ <? _); [done|].
    by destruct (users (data w) !! str user).
  - unfold ApprovalView_approve. by destruct (orders (data w) !! order_ref v).
  - unfold ApprovalView_deny. by destruct (orders (data w) !! order_ref v).
  - unfold add_product. destruct (negb _); [done|].
    destruct (existsb _ _) eqn:E; [done|]. cbn.
    apply NoDup_names_snoc; [done|]. by apply existsb_named_false.
  - unfold remove_product. destruct (negb _); [done|]. cbn.
    destruct (_ =? _)%nat; cbn; by apply NoDup_names_filter.
  - unfold add_balance. by destruct (negb _).
  - unfold remove_balance. destruct (negb _); [done|].
    by destruct (setdefault _ _).
Qed.

(** X3. The names of the catalogue stay distinct: starting from a
    catalogue without two products of one name (the empty one, for
    instance), no sequence of interactions produces such a pair. *)
Theorem names_stay_unique (ALLOWED_USER_ID : Z) (key : string)
    (es : list event) (w : World) :
  names_unique (data w) →
  names_unique (data (run ALLOWED_USER_ID key es w)).
Proof.
  revert w. induction es as [|e es IH]; intros w Hw; [done|].
  change (run ALLOWED_USER_ID key (e :: es) w)
    with (run ALLOWED_USER_ID key es (snd (handle ALLOWED_USER_ID key e w))).
  apply IH. by apply handle_names_unique.
Qed.

Lemma names_stay_unique_witness :
  names_unique (data start) ∧
  names_unique
    (data (run 7 "key"
             [AddProduct 7 "gem" "VIP" "VIP-Role" 100;
              AddProduct 7 "star" "VIP" "Other-Role" 5;
              AddProduct 7 "star" "MVP" "MVP-Role" 5;
              RemoveProduct 7 "VIP"] start)).
Proof.
  assert (H : names_unique (data start)) by apply NoDup_nil_2.
  split; [exact H|].
  exact (names_stay_unique 7 "key" _ start H).
Defined.

(** X4. Adding a product under a new name and removing it again gives
    back the catalogue there was, and the removal answers
    [ProductRemoved]. *)
Theorem add_then_remove (ALLOWED_USER_ID user : Z)
    (emoji name rank : string) (price : Z) (w : World) :
  is_admin ALLOWED_USER_ID user = true →
  ¬ In name (map p_name (products (data w))) →
  fst (remove_product ALLOWED_USER_ID user name
         (snd (add_product ALLOWED_USER_ID user emoji name rank price w)))
    = ProductRemoved ∧
  data (snd (remove_product ALLOWED_USER_ID user name
               (snd (add_product ALLOWED_USER_ID user emoji name rank price w))))
    = data w.
Proof.
  intros Hadm Hnew. unfold add_product. rewrite Hadm. cbn [negb].
  rewrite (proj2 (existsb_named_false _ _) Hnew). cbn [snd].
  unfold remove_product. rewrite Hadm. cbn.
  rewrite List.filter_app, (filter_other_names _ _ Hnew). cbn.
  rewrite String.eqb_refl. cbn.
  rewrite app_nil_r, length_app. cbn.
  destruct (Nat.eqb_spec (length (products (data w)))
              (length (products (data w)) + 1)); [lia|].
  split; [done|]. by destruct w as [[] ? ?].
Qed.

Lemma add_then_remove_witness :
  is_admin 7 7 = true ∧
  ¬ In "MVP" (map p_name (products (data vip_shop))) ∧
  data (snd (remove_product 7 7 "MVP"
               (snd (add_product 7 7 "star" "MVP" "MVP-Role" 5 vip_shop))))
    = data vip_shop.
Proof.
  assert (Hnew : ¬ In "MVP" (map p_name (products (data vip_shop)))).
  { intros [H|[]]. discriminate H. }
  split; [reflexivity|]. split; [exact Hnew|].
  exact (proj2 (add_then_remove 7 7 "star" "MVP" "MVP-Role" 5 vip_shop
                  eq_refl Hnew)).
Defined.

(** ** Who may do what *)

(** X5. A user other than the permitted one gets [NoPermission] from the
    select, from the order button (so from an order made through the
    shop view) and from each of the four slash commands, and none of them
    changes or saves anything. *)
Theorem others_change_nothing (ALLOWED_USER_ID user : Z) (w : World) :
  user ≠ ALLOWED_USER_ID →
  (∀ value, ProductSelect_callback ALLOWED_USER_ID user value w
            = (NoPermission, w)) ∧
  OrderButton_callback ALLOWED_USER_ID user = Answers NoPermission ∧
  (∀ rank colour, shop_order ALLOWED_USER_ID user rank colour w
                  = (NoPermission, w)) ∧
  (∀ emoji name rank price,
     add_product ALLOWED_USER_ID user emoji name rank price w
     = (NoPermission, w)) ∧
  (∀ name, remove_product ALLOWED_USER_ID user name w = (NoPermission, w)) ∧
  (∀ target amount, add_balance ALLOWED_USER_ID user target amount w
                    = (NoPermission, w)) ∧
  (∀ target amount, remove_balance ALLOWED_USER_ID user target amount w
                    = (NoPermission, w)).
Proof.
  intros Hne. apply Z.eqb_neq in Hne.
  unfold ProductSelect_callback, shop_order, OrderButton_callback,
    add_product, remove_product, add_balance, remove_balance, is_admin.
  rewrite Hne. cbn. done.
Qed.

Lemma others_change_nothing_witness :
  42 ≠ 7 ∧
  ProductSelect_callback 7 42 "VIP" vip_buyer = (NoPermission, vip_buyer) ∧
  add_balance 7 42 42 1000 vip_buyer = (NoPermission, vip_buyer).
Proof.
  assert (Hne : 42 ≠ 7) by discriminate.
  split; [exact Hne|].
  destruct (others_change_nothing 7 42 vip_buyer Hne)
    as (Hs & _ & _ & _ & _ & Ha & _).
  split; [exact (Hs "VIP") | exact (Ha 42 1000)].
Defined.

(** ** Buying, when the money is there *)

Lemma str_inj (a b : Z) : str a = str b → a = b.
Proof. unfold str. apply (inj pretty). Qed.

Lemma find_named_name (name : string) (l : list Product) (p : Product) :
  List.find (named name) l = Some p → p_name p = name ∧ In p l.
Proof.
  intros H. apply find_some in H as [Hin Hn].
  by apply named_true in Hn.
Qed.

(** X6. When the permitted user picks a product they can pay,
    [ProductSelect.callback] answers with the product's rank, takes
    exactly the price from that user's balance, leaves every other
    balance, the catalogue, the orders and the topup logs alone, and
    saves once. *)
Theorem purchase_debits_price (ALLOWED_USER_ID : Z) (value : string)
    (w : World) (product : Product) :
  List.find (named value) (products (data w)) = Some product →
  p_price product ≤ get_balance (data w) (str ALLOWED_USER_ID) →
  fst (ProductSelect_callback ALLOWED_USER_ID ALLOWED_USER_ID value w)
    = Purchased (p_rank product) ∧
  (∀ uid,
     get_balance
       (data (snd (ProductSelect_callback ALLOWED_USER_ID ALLOWED_USER_ID
                     value w))) uid
     = if decide (uid = str ALLOWED_USER_ID)
       then get_balance (data w) uid - p_price product
       else get_balance (data w) uid) ∧
  products (data (snd (ProductSelect_callback ALLOWED_USER_ID ALLOWED_USER_ID
                         value w))) = products (data w) ∧
  orders (data (snd (ProductSelect_callback ALLOWED_USER_ID ALLOWED_USER_ID
                       value w))) = orders (data w) ∧
  topup_logs (data (snd (ProductSelect_callback ALLOWED_USER_ID
                           ALLOWED_USER_ID value w))) = topup_logs (data w) ∧
  saves (snd (ProductSelect_callback ALLOWED_USER_ID ALLOWED_USER_ID value w))
    = S (saves w) ∧
  disk (snd (ProductSelect_callback ALLOWED_USER_ID ALLOWED_USER_ID value w))
    = Document
        (data_json
           (data (snd (ProductSelect_callback ALLOWED_USER_ID ALLOWED_USER_ID
                         value w)))).
Proof.
  intros Hfind Hpay. unfold ProductSelect_callback.
  rewrite Z.eqb_refl. cbn [negb]. rewrite Hfind.
  unfold setdefault, get_balance in *.
  destruct (users (data w) !! str ALLOWED_USER_ID) as [u|] eqn:Hu.
  - destruct (Z.ltb_spec (balance u) (p_price product)); [lia|].
    cbn. repeat split. intros uid. case_decide as Hd.
    + subst uid. by rewrite lookup_insert_eq, Hu.
    + by rewrite lookup_insert_ne.
  - cbn [balance].
    destruct (Z.ltb_spec 0 (p_price product)); [lia|].
    cbn. repeat split. intros uid. case_decide as Hd.
    + subst uid. by rewrite lookup_insert_eq, Hu.
    + rewrite !lookup_insert_ne by done. done.
Qed.

Lemma purchase_debits_price_witness :
  List.find (named "VIP") (products (data vip_buyer))
    = Some (mkProduct "gem" "VIP" "VIP-Role" 100 "") ∧
  100 ≤ get_balance (data vip_buyer) (str 7) ∧
  fst (ProductSelect_callback 7 7 "VIP" vip_buyer) = Purchased "VIP-Role" ∧
  get_balance (data (snd (ProductSelect_callback 7 7 "VIP" vip_buyer))) "7"
    = get_balance (data vip_buyer) "7" - 100.
Proof.
  assert (Hpay : 100 ≤ get_balance (data vip_buyer) (str 7))
    by (vm_compute; discriminate).
  split; [reflexivity|]. split; [exact Hpay|].
  destruct (purchase_debits_price 7 "VIP" vip_buyer
              (mkProduct "gem" "VIP" "VIP-Role" 100 "") eq_refl Hpay)
    as (Hr & Hb & _).
  split; [exact Hr | exact (Hb "7")].
Defined.

(** X7. A value the select offers is a value the callback finds: for
    every option built from the current catalogue the permitted user
    never gets [ProductMissing]; for a value that names no product the
    answer is [ProductMissing] and nothing changes. *)
Theorem offered_is_found (ALLOWED_USER_ID : Z) (value : string) (w : World) :
  (In value (map label (ProductSelect_options (data w))) →
   fst (ProductSelect_callback ALLOWED_USER_ID ALLOWED_USER_ID value w)
     ≠ ProductMissing) ∧
  (¬ In value (map label (ProductSelect_options (data w))) →
   ProductSelect_callback ALLOWED_USER_ID ALLOWED_USER_ID value w
     = (ProductMissing, w)).
Proof.
  assert (Hl : map label (ProductSelect_options (data w))
               = map p_name (products (data w))).
  { unfold ProductSelect_options. rewrite map_map. reflexivity. }
  rewrite Hl. unfold ProductSelect_callback. rewrite Z.eqb_refl. cbn [negb].
  split; intros H.
  - apply existsb_named in H. apply existsb_exists in H as (p & Hp & Hn).
    destruct (List.find (named value) (products (data w))) as [q|] eqn:Hf.
    + destruct (setdefault _ _). by destruct (_ <? _).
    + by rewrite (find_none _ _ Hf p Hp) in Hn.
  - destruct (List.find (named value) (products (data w))) as [q|] eqn:Hf;
      [|done].
    apply find_named_name in Hf as [Hn Hin]. destruct H.
    apply in_map_iff. eauto.
Qed.

Lemma offered_is_found_witness :
  In "VIP" (map label (ProductSelect_options (data vip_buyer))) ∧
  fst (ProductSelect_callback 7 7 "VIP" vip_buyer) ≠ ProductMissing ∧
  ¬ In "MVP" (map label (ProductSelect_options (data vip_buyer))) ∧
  ProductSelect_callback 7 7 "MVP" vip_buyer = (ProductMissing, vip_buyer).
Proof.
  assert (Hin : In "VIP" (map label (ProductSelect_options (data vip_buyer))))
    by (left; reflexivity).
  assert (Hout : ¬ In "MVP"
                   (map label (ProductSelect_options (data vip_buyer)))).
  { intros [H|[]]. discriminate H. }
  split; [exact Hin|].
  split; [exact (proj1 (offered_is_found 7 "VIP" vip_buyer) Hin)|].
  split; [exact Hout|].
  exact (proj2 (offered_is_found 7 "MVP" vip_buyer) Hout).
Defined.

(** ** What every order looks like *)

Lemma stored_colour_canonical (colour : string) :
  Re.fullmatch HEX_RE colour = true →
  ∃ body,
    (if String.prefix "#" colour then colour else String "#" colour)
    = canonical body ∧ six_hex_digits body.
Proof.
  intros H. apply fullmatch_valid in H. rewrite prefix_hash.
  destruct H as [H|(body & -> & H)].
  - exists colour. split; [|done].
    destruct colour as [|c rest]; [done|].
    destruct (Ascii.eqb_spec "#" c) as [<-|]; [|done].
    by destruct (six_hex_no_hash rest).
  - exists body. by rewrite Ascii.eqb_refl.
Qed.

Lemma set_status_wf (s : string) (o : Order) :
  order_wf o → s = PENDING ∨ s = APPROVED ∨ s = DENIED →
  order_wf (set_status s o).
Proof. intros (Hp & Hc & _ & Hu) Hs. by repeat split. Qed.

Lemma handle_orders_wf (ALLOWED_USER_ID : Z) (key : string) (e : event)
    (w : World) :
  orders_wf (data w) →
  orders_wf (data (snd (handle ALLOWED_USER_ID key e w))).
Proof.
  unfold orders_wf. intros H. destruct e; cbn [handle].
  - unfold ProductSelect_callback.
    destruct (negb _); [done|]. destruct (find _ _); [|done].
    destruct (setdefault _ _). by destruct (_ <? _).
  - done.
  - unfold TopupModal_on_submit.
    destruct (check_topup _ _ _) as [result|]; [|done].
    destruct (res_status result) as [st|]; [|done].
    by destruct (String.eqb st "success").
  - unfold OrderModal_on_submit.
    destruct (Re.fullmatch HEX_RE colour) eqn:Hc; [|done]. cbn [negb].
    cbn zeta. destruct (_ <? _); [done|].
    destruct (users (data w) !! str user); [|done].
    cbn. apply Forall_app. split; [done|]. apply Forall_singleton.
    split; [done|]. split; [by apply stored_colour_canonical|].
    split; [by left | by exists user].
  - unfold ApprovalView_approve.
    destruct (orders (data w) !! order_ref v) as [o|] eqn:Ho; [|done].
    cbn. apply Forall_insert; [done|]. apply set_status_wf; [|by right; left].
    by eapply (Forall_lookup_1 _ _ _ _ H).
  - unfold ApprovalView_deny.
    destruct (orders (data w) !! order_ref v) as [o|] eqn:Ho; [|done].
    cbn. apply Forall_insert; [done|]. apply set_status_wf; [|by right; right].
    by eapply (Forall_lookup_1 _ _ _ _ H).
  - unfold add_product. destruct (negb _); [done|].
    by destruct (existsb _ _).
  - unfold remove_product. destruct (negb _); [done|]. cbn.
    by destruct (_ =? _)%nat.
  - unfold add_balance. by destruct (negb _).
  - unfold remove_balance. destruct (negb _); [done|].
    by destruct (setdefault _ _).
Qed.

(** X8. Every order the bot holds costs the flat fee of 50, has a
    colour made of [#] and six hexadecimal digits, carries one of the
    three statuses the code writes, and belongs to a user id printed
    from an integer: this holds of the empty ledger and is kept by every
    interaction. *)
Theorem orders_stay_wf (ALLOWED_USER_ID : Z) (key : string)
    (es : list event) (w : World) :
  orders_wf (data w) →
  orders_wf (data (run ALLOWED_USER_ID key es w)).
Proof.
  revert w. induction es as [|e es IH]; intros w Hw; [done|].
  change (run ALLOWED_USER_ID key (e :: es) w)
    with (run ALLOWED_USER_ID key es (snd (handle ALLOWED_USER_ID key e w))).
  apply IH. by apply handle_orders_wf.
Qed.

Lemma orders_stay_wf_witness :
  orders_wf (data start) ∧
  orders_wf (data (run 7 "key" busy_day start)) ∧
  length (orders (data (run 7 "key" busy_day start))) = 1%nat.
Proof.
  assert (H : orders_wf (data start)) by apply Forall_nil_2.
  split; [exact H|].
  split; [exact (orders_stay_wf 7 "key" busy_day start H) | reflexivity].
Defined.

Lemma handle_ids_sequential (ALLOWED_USER_ID : Z) (key : string) (e : event)
    (w : World) :
  ids_sequential (data w) →
  ids_sequential (data (snd (handle ALLOWED_USER_ID key e w))).
Proof.
  unfold ids_sequential. intros H.
  assert (Hins : ∀ j s o', orders (data w) !! j = Some o' →
            ∀ i o, <[j := set_status s o']> (orders (data w)) !! i = Some o →
                   order_id o = Z.of_nat i + 1).
  { intros j s o' Hj i o. destruct (decide (j = i)) as [->|Hne].
    - rewrite list_lookup_insert_eq by (by eapply lookup_lt_Some).
      intros [= <-]. cbn. by apply H.
    - rewrite list_lookup_insert_ne by done. apply H. }
  destruct e; cbn [handle].
  - unfold ProductSelect_callback.
    destruct (negb _); [done|]. destruct (find _ _); [|done].
    destruct (setdefault _ _). by destruct (_ <? _).
  - done.
  - unfold TopupModal_on_submit.
    destruct (check_topup _ _ _) as [result|]; [|done].
    destruct (res_status result) as [st|]; [|done].
    by destruct (String.eqb st "success").
  - unfold OrderModal_on_submit.
    destruct (negb _); [done|]. cbn zeta. destruct (_ <? _); [done|].
    destruct (users (data w) !! str user); [|done].
    cbn. intros i o Hi. apply lookup_app_Some in Hi as [Hi|[Hlen Hi]].
    + by apply H.
    + apply list_lookup_singleton_Some in Hi as [Hi <-]. cbn.
      f_equal. lia.
  - unfold ApprovalView_approve.
    destruct (orders (data w) !! order_ref v) as [o'|] eqn:Ho; [|done].
    cbn. by eapply Hins.
  - unfold ApprovalView_deny.
    destruct (orders (data w) !! order_ref v) as [o'|] eqn:Ho; [|done].
    cbn. by eapply Hins.
  - unfold add_product. destruct (negb _); [done|].
    by destruct (existsb _ _).
  - unfold remove_product. destruct (negb _); [done|]. cbn.
    by destruct (_ =? _)%nat.
  - unfold add_balance. by destruct (negb _).
  - unfold remove_balance. destruct (negb _); [done|].
    by destruct (setdefault _ _).
Qed.

Lemma run_ids_sequential (ALLOWED_USER_ID : Z) (key : string)
    (es : list event) (w : World) :
  ids_sequential (data w) →
  ids_sequential (data (run ALLOWED_USER_ID key es w)).
Proof.
  revert w. induction es as [|e es IH]; intros w Hw; [done|].
  change (run ALLOWED_USER_ID key (e :: es) w)
    with (run ALLOWED_USER_ID key es (snd (handle ALLOWED_USER_ID key e w))).
  apply IH. by apply handle_ids_sequential.
Qed.

(** X9. Orders are numbered in the order they were placed: the order at
    position [i] of the list has the number [i + 1], so the numbers
    start at 1, rise by one and never repeat. This holds of the empty
    ledger and is kept by every interaction. *)
Theorem order_ids_sequential (ALLOWED_USER_ID : Z) (key : string)
    (es : list event) (w : World) :
  ids_sequential (data w) →
  ids_sequential (data (run ALLOWED_USER_ID key es w)) ∧
  ∀ i j oi oj,
    orders (data (run ALLOWED_USER_ID key es w)) !! i = Some oi →
    orders (data (run ALLOWED_USER_ID key es w)) !! j = Some oj →
    order_id oi = order_id oj → i = j.
Proof.
  intros Hw. pose proof (run_ids_sequential ALLOWED_USER_ID key es w Hw) as H.
  split; [done|]. intros i j oi oj Hi Hj Heq.
  apply H in Hi. apply H in Hj. lia.
Qed.

Lemma order_ids_sequential_witness :
  ids_sequential (data start) ∧
  ids_sequential
    (data (run 7 "key"
             [AddBalance 7 42 120; PlaceOrder 42 "Shadow" "ff66cc";
              Approve (mkView 0); PlaceOrder 42 "Light" "#FFFFFF"] start)) ∧
  map order_id
    (orders (data (run 7 "key"
             [AddBalance 7 42 120; PlaceOrder 42 "Shadow" "ff66cc";
              Approve (mkView 0); PlaceOrder 42 "Light" "#FFFFFF"] start)))
  = [1; 2].
Proof.
  assert (H : ids_sequential (data start)).
  { intros i o Hi. cbn in Hi. by rewrite lookup_nil in Hi. }
  split; [exact H|].
  split; [exact (proj1 (order_ids_sequential 7 "key" _ start H)) | reflexivity].
Defined.

(** ** What the two buttons touch *)

(** X10. [approve] and [deny] rewrite the status of the order their view
    holds and nothing else in the list: the other orders, the length of
    the list, the catalogue and the topup logs stay as they are, and
    [approve] moves no money at all. *)
Theorem buttons_touch_one_order (v : ApprovalView) (w : World) :
  (users (data (snd (ApprovalView_approve v w))) = users (data w) ∧
   products (data (snd (ApprovalView_approve v w))) = products (data w) ∧
   topup_logs (data (snd (ApprovalView_approve v w))) = topup_logs (data w) ∧
   length (orders (data (snd (ApprovalView_approve v w))))
     = length (orders (data w)) ∧
   ∀ i o, orders (data w) !! i = Some o →
     orders (data (snd (ApprovalView_approve v w))) !! i
     = Some (if decide (i = order_ref v) then set_status APPROVED o else o)) ∧
  (products (data (snd (ApprovalView_deny v w))) = products (data w) ∧
   topup_logs (data (snd (ApprovalView_deny v w))) = topup_logs (data w) ∧
   length (orders (data (snd (ApprovalView_deny v w))))
     = length (orders (data w)) ∧
   ∀ i o, orders (data w) !! i = Some o →
     orders (data (snd (ApprovalView_deny v w))) !! i
     = Some (if decide (i = order_ref v) then set_status DENIED o else o)).
Proof.
  assert (Hins : ∀ s o' i o,
            orders (data w) !! order_ref v = Some o' →
            orders (data w) !! i = Some o →
            <[order_ref v := set_status s o']> (orders (data w)) !! i
            = Some (if decide (i = order_ref v) then set_status s o else o)).
  { intros s o' i o Hv Hi. case_decide as Hd.
    - subst i. rewrite list_lookup_insert_eq by (by eapply lookup_lt_Some).
      congruence.
    - by rewrite list_lookup_insert_ne. }
  unfold ApprovalView_approve, ApprovalView_deny.
  destruct (orders (data w) !! order_ref v) as [o'|] eqn:Hv; cbn.
  - rewrite !length_insert. repeat split; intros i o Hi; by apply Hins.
  - repeat split; intros i o Hi; case_decide; congruence.
Qed.

(** ** What a restart finds *)

Lemma with_users_same (w : World) : with_users (users (data w)) w = w.
Proof. by destruct w as [[] ? ?]. Qed.

(** A handler leaves the bot alone, or ends in [save_data], or (the
    refused purchase of a user without account) adds an account at 0. *)
Lemma handle_cases (ALLOWED_USER_ID : Z) (key : string) (e : event)
    (w : World) :
  snd (handle ALLOWED_USER_ID key e w) = w ∨
  (∃ w1, snd (handle ALLOWED_USER_ID key e w) = save_data w1) ∨
  (∃ uid, users (data w) !! uid = None ∧
          snd (handle ALLOWED_USER_ID key e w)
          = with_users (<[uid := mkUser 0]> (users (data w))) w).
Proof.
  destruct e; cbn [handle].
  - unfold ProductSelect_callback, setdefault.
    destruct (negb _); [by left|]. destruct (find _ _); [|by left].
    destruct (users (data w) !! str user) as [u|] eqn:Hu.
    + destruct (_ <? _); cbn [snd].
      * left. apply with_users_same.
      * right; left. eauto.
    + destruct (_ <? _); cbn [snd].
      * right; right. eauto.
      * right; left. eauto.
  - by left.
  - unfold TopupModal_on_submit.
    destruct (check_topup _ _ _) as [result|]; [|by left].
    destruct (res_status result) as [st|]; [|by left].
    destruct (String.eqb st "success"); [|by left].
    right; left. cbn. eauto.
  - unfold OrderModal_on_submit.
    destruct (negb _); [by left|]. cbn zeta. destruct (_ <? _); [by left|].
    destruct (users (data w) !! str user); [|by left].
    right; left. cbn. eauto.
  - unfold ApprovalView_approve.
    destruct (orders (data w) !! order_ref v); [|by left].
    right; left. cbn. eauto.
  - unfold ApprovalView_deny.
    destruct (orders (data w) !! order_ref v); [|by left].
    right; left. cbn. eauto.
  - unfold add_product. destruct (negb _); [by left|].
    destruct (existsb _ _); [by left|]. right; left. cbn. eauto.
  - unfold remove_product. destruct (negb _); [by left|].
    right; left. cbn. destruct (_ =? _)%nat; cbn; eauto.
  - unfold add_balance. destruct (negb _); [by left|].
    right; left. cbn. eauto.
  - unfold remove_balance. destruct (negb _); [by left|].
    destruct (setdefault _ _). right; left. cbn. eauto.
Qed.

Lemma same_ledger_refl (d : Data) : same_ledger d d.
Proof. by repeat split. Qed.

Lemma handle_durable (ALLOWED_USER_ID : Z) (key : string) (e : event)
    (w : World) :
  durable w → durable (snd (handle ALLOWED_USER_ID key e w)).
Proof.
  intros (d & Hd & Hp & Ho & Ht & Hb).
  destruct (handle_cases ALLOWED_USER_ID key e w)
    as [->|[[w1 ->]|(uid & Hu & ->)]].
  - by exists d.
  - exists (data w1). split; [apply json_data_inv | apply same_ledger_refl].
  - exists d. split; [done|]. repeat split; try done.
    intros k. rewrite Hb. unfold get_balance. cbn.
    destruct (decide (uid = k)) as [<-|Hne].
    + by rewrite lookup_insert_eq, Hu.
    + by rewrite lookup_insert_ne.
Qed.

Lemma run_durable (ALLOWED_USER_ID : Z) (key : string) (es : list event)
    (w : World) :
  durable w → durable (run ALLOWED_USER_ID key es w).
Proof.
  revert w. induction es as [|e es IH]; intros w Hw; [done|].
  change (run ALLOWED_USER_ID key (e :: es) w)
    with (run ALLOWED_USER_ID key es (snd (handle ALLOWED_USER_ID key e w))).
  apply IH. by apply handle_durable.
Qed.

(** X11. Nothing a handler could show is lost by a restart. Take a bot
    started on any file it can read as a ledger (no file and a corrupted
    file among them), and let any interactions happen: a process
    started on the file as it then is gets the same catalogue, the same
    orders, the same topup logs and the same balance for every user as
    the running bot has in memory. *)
Theorem restart_loses_nothing (ALLOWED_USER_ID : Z) (key : string)
    (f : file) (w : World) (es : list event) :
  boot f = Some w →
  ∃ w', boot (disk (run ALLOWED_USER_ID key es w)) = Some w' ∧
        same_ledger (data w') (data (run ALLOWED_USER_ID key es w)).
Proof.
  intros Hboot.
  assert (Hw : durable w).
  { unfold boot in Hboot.
    destruct (json_data (load_data f)) as [d|] eqn:Hd; [|done].
    injection Hboot as <-. exists d. split; [done | apply same_ledger_refl]. }
  destruct (run_durable ALLOWED_USER_ID key es w Hw) as (d & Hd & Hsame).
  unfold boot. rewrite Hd. cbn. eauto.
Qed.

Lemma restart_loses_nothing_witness :
  boot Corrupted = Some (mkWorld fresh Corrupted 0) ∧
  ∃ w', boot (disk (run 7 "key"
                      [AddProduct 7 "gem" "VIP" "VIP-Role" 100; Select 7 "VIP";
                       AddBalance 7 42 50; PlaceOrder 42 "Shadow" "ff66cc"]
                      (mkWorld fresh Corrupted 0))) = Some w' ∧
        same_ledger (data w')
          (data (run 7 "key"
                   [AddProduct 7 "gem" "VIP" "VIP-Role" 100; Select 7 "VIP";
                    AddBalance 7 42 50; PlaceOrder 42 "Shadow" "ff66cc"]
                   (mkWorld fresh Corrupted 0))).
Proof.
  split; [reflexivity|].
  exact (restart_loses_nothing 7 "key" Corrupted (mkWorld fresh Corrupted 0)
           _ eq_refl).
Defined.

(** ** What is only ever added to *)

Lemma handle_logs_prefix (ALLOWED_USER_ID : Z) (key : string) (e : event)
    (w : World) :
  topup_logs (data w) `prefix_of`
    topup_logs (data (snd (handle ALLOWED_USER_ID key e w))) ∧
  (length (orders (data w))
   ≤ length (orders (data (snd (handle ALLOWED_USER_ID key e w)))))%nat.
Proof.
  destruct e; cbn [handle].
  - unfold ProductSelect_callback.
    destruct (negb _); [done|]. destruct (find _ _); [|done].
    destruct (setdefault _ _). by destruct (_ <? _).
  - done.
  - unfold TopupModal_on_submit.
    destruct (check_topup _ _ _) as [result|]; [|done].
    destruct (res_status result) as [st|]; [|done].
    destruct (String.eqb st "success"); [|done].
    cbn. split; [by apply prefix_app_r | done].
  - unfold OrderModal_on_submit.
    destruct (negb _); [done|]. cbn zeta. destruct (_ <? _); [done|].
    destruct (users (data w) !! str user); [|done].
    cbn. split; [done|]. rewrite length_app. lia.
  - unfold ApprovalView_approve.
    destruct (orders (data w) !! order_ref v); [|done].
    cbn. by rewrite length_insert.
  - unfold ApprovalView_deny.
    destruct (orders (data w) !! order_ref v); [|done].
    cbn. by rewrite length_insert.
  - unfold add_product. destruct (negb _); [done|].
    by destruct (existsb _ _).
  - unfold remove_product. destruct (negb _); [done|]. cbn.
    by destruct (_ =? _)%nat.
  - unfold add_balance. by destruct (negb _).
  - unfold remove_balance. destruct (negb _); [done|].
    by destruct (setdefault _ _).
Qed.

(** X12. The topup logs and the orders are only ever added to. After
    any interactions the logs begin with the logs there were, the list of
    orders is at least as long, and an order that was there is still at
    its position with its number, user, rank name, colour and price:
    only its status may have been rewritten. *)
Theorem records_only_grow (ALLOWED_USER_ID : Z) (key : string)
    (es : list event) (w : World) :
  topup_logs (data w) `prefix_of`
    topup_logs (data (run ALLOWED_USER_ID key es w)) ∧
  (length (orders (data w))
   ≤ length (orders (data (run ALLOWED_USER_ID key es w))))%nat ∧
  ∀ i o, orders (data w) !! i = Some o →
    ∃ s, orders (data (run ALLOWED_USER_ID key es w)) !! i
         = Some (set_status s o).
Proof.
  split; [|split]; [| |by apply run_keeps_order].
  - revert w. induction es as [|e es IH]; intros w; [done|].
    change (run ALLOWED_USER_ID key (e :: es) w)
      with (run ALLOWED_USER_ID key es (snd (handle ALLOWED_USER_ID key e w))).
    etrans; [|apply IH]. apply handle_logs_prefix.
  - revert w. induction es as [|e es IH]; intros w; [done|].
    change (run ALLOWED_USER_ID key (e :: es) w)
      with (run ALLOWED_USER_ID key es (snd (handle ALLOWED_USER_ID key e w))).
    etrans; [|apply IH]. apply handle_logs_prefix.
Qed.

(** ** Accounts do not collide *)

(** X13. A credit or a debit by the administrator shows in the balance
    of its target and of nobody else: afterwards the balance button
    shows the target the old balance plus the amount (after a debit, the
    old balance minus the amount, or 0 if that is negative), and shows
    every user with another id what it showed before. The button itself
    changes nothing and creates no account. *)
Theorem admin_reaches_target_only (ALLOWED_USER_ID admin target other : Z)
    (amount : Z) (w : World) :
  is_admin ALLOWED_USER_ID admin = true →
  other ≠ target →
  BalanceButton_callback target
    (snd (add_balance ALLOWED_USER_ID admin target amount w))
  = (ShowBalance (get_balance (data w) (str target) + amount),
     snd (add_balance ALLOWED_USER_ID admin target amount w)) ∧
  fst (BalanceButton_callback other
         (snd (add_balance ALLOWED_USER_ID admin target amount w)))
  = fst (BalanceButton_callback other w) ∧
  BalanceButton_callback target
    (snd (remove_balance ALLOWED_USER_ID admin target amount w))
  = (ShowBalance (Z.max 0 (get_balance (data w) (str target) - amount)),
     snd (remove_balance ALLOWED_USER_ID admin target amount w)) ∧
  fst (BalanceButton_callback other
         (snd (remove_balance ALLOWED_USER_ID admin target amount w)))
  = fst (BalanceButton_callback other w).
Proof.
  intros Hadm Hne.
  assert (Hstr : str target ≠ str other).
  { intros H. apply str_inj in H. congruence. }
  unfold BalanceButton_callback. cbn [fst].
  rewrite (remove_balance_clamps _ _ _ _ _ Hadm).
  unfold add_balance, remove_balance. rewrite Hadm. cbn [negb snd].
  change (data (save_data ?x)) with (data x).
  rewrite !get_balance_credit, decide_True, decide_False by done.
  repeat split.
  unfold setdefault, get_balance.
  destruct (users (data w) !! str target) as [u|] eqn:Hu; cbn;
    rewrite ?lookup_insert_ne by done; done.
Qed.

Lemma admin_reaches_target_only_witness :
  is_admin 7 7 = true ∧ 43 ≠ 42 ∧
  fst (BalanceButton_callback 42 (snd (add_balance 7 7 42 5 funded)))
  = ShowBalance 55 ∧
  fst (BalanceButton_callback 43 (snd (add_balance 7 7 42 5 funded)))
  = fst (BalanceButton_callback 43 funded).
Proof.
  assert (Hne : 43 ≠ 42) by discriminate.
  split; [reflexivity|]. split; [exact Hne|].
  destruct (admin_reaches_target_only 7 7 42 43 5 funded eq_refl Hne)
    as (Ht & Ho & _).
  split; [exact (f_equal fst Ht) | exact Ho].
Defined.

(** ** What an order costs *)

(** X14. An order with a valid colour from a user who holds the flat fee
    is answered with a view on the new order, which is appended as the
    last one, pending, numbered one more than there were orders, in the
    user's name; it takes exactly 50 from that user's balance and
    nothing from anyone else, leaves catalogue and topup logs alone and
    saves once. *)
Theorem order_costs_flat_fee (user : Z) (rank colour : string) (w : World) :
  valid_colour colour →
  50 ≤ get_balance (data w) (str user) →
  ∃ w' c,
    OrderModal_on_submit user rank colour w
    = (OrderSent (mkView (length (orders (data w)))), w') ∧
    orders (data w')
    = (orders (data w) ++
       [mkOrder (Z.of_nat (length (orders (data w))) + 1) (str user) rank c
          50 PENDING])%list ∧
    (∀ uid, get_balance (data w') uid
            = if decide (uid = str user)
              then get_balance (data w) uid - 50
              else get_balance (data w) uid) ∧
    products (data w') = products (data w) ∧
    topup_logs (data w') = topup_logs (data w) ∧
    saves w' = S (saves w) ∧
    disk w' = Document (data_json (data w')).
Proof.
  intros Hc Hb.
  destruct (on_submit_accepts user rank colour w Hc Hb) as (u & Hu & ->).
  cbn zeta. eexists _, _. split; [reflexivity|]. cbn.
  repeat split. intros uid. unfold get_balance. cbn. case_decide as Hd.
  - subst uid. by rewrite lookup_insert_eq, Hu.
  - by rewrite lookup_insert_ne.
Qed.

Lemma order_costs_flat_fee_witness :
  valid_colour "#FF66CC" ∧ 50 ≤ get_balance (data funded) (str 42) ∧
  ∃ w' c,
    OrderModal_on_submit 42 "Shadow" "#FF66CC" funded
    = (OrderSent (mkView 0), w') ∧
    orders (data w') = [mkOrder 1 "42" "Shadow" c 50 PENDING] ∧
    get_balance (data w') "42" = 0.
Proof.
  assert (Hc : valid_colour "#FF66CC") by (by apply fullmatch_valid).
  assert (Hb : 50 ≤ get_balance (data funded) (str 42))
    by (vm_compute; discriminate).
  split; [exact Hc|]. split; [exact Hb|].
  destruct (order_costs_flat_fee 42 "Shadow" "#FF66CC" funded Hc Hb)
    as (w' & c & He & Ho & Hbal & _).
  exists w', c. split; [exact He|]. split; [exact Ho|].
  exact (Hbal "42").
Defined.

(** ** The group finder's switch *)

Lemma finder_serve_tidy (r : Finder.request) (s : Finder.State) :
  Finder.tidy s → Finder.tidy (snd (Finder.serve r s)).
Proof.
  intros [Hc Ht]. destruct r; cbn [Finder.serve]; [| |done].
  - unfold Finder.start_finder.
    destruct (Finder.running s) eqn:Hr.
    { unfold Finder.tidy. cbn [snd]. rewrite Hr. exact (conj Hc Ht). }
    split; cbn [Finder.tasks Finder.created Finder.running Finder.cancelled snd].
    + intros t. rewrite Hc. lia.
    + right. split; [f_equal|]; lia.
  - unfold Finder.stop_finder, Finder.stop_end, Finder.stop_begin.
    split; cbn [Finder.tasks Finder.created Finder.running Finder.cancelled snd].
    + intros t. rewrite elem_of_union, elem_of_list_to_set, Hc.
      destruct Ht as [(-> & Hz & ->)|[-> Hle]].
      * rewrite elem_of_nil. lia.
      * rewrite elem_of_seq. destruct (Finder.running s); lia.
    + destruct Ht as [(Ht & Hz & _)|Ht]; [left | right]; done.
Qed.

(** X15. As long as the requests are served one after the other, the
    switch keeps its workers in order: whatever was asked and how often,
    when the finder is off, [cancel] has been called on every task ever
    created; when it is on, the five tasks of the last start are the
    registered ones, [cancel] has been called on none of them and on
    every earlier one. *)
Theorem finder_sequential_use (rs : list Finder.request) :
  (∀ t, t ∈ Finder.cancelled (Finder.serve_all rs Finder.init) ↔
        (t < (if Finder.running (Finder.serve_all rs Finder.init)
              then Finder.created (Finder.serve_all rs Finder.init) - 5
              else Finder.created (Finder.serve_all rs Finder.init)))%nat) ∧
  (Finder.running (Finder.serve_all rs Finder.init) = true →
   Finder.tasks (Finder.serve_all rs Finder.init)
   = seq (Finder.created (Finder.serve_all rs Finder.init) - 5) 5 ∧
   ∀ t, t ∈ Finder.tasks (Finder.serve_all rs Finder.init) →
        t ∉ Finder.cancelled (Finder.serve_all rs Finder.init)).
Proof.
  assert (H : Finder.tidy (Finder.serve_all rs Finder.init)).
  { assert (H0 : Finder.tidy Finder.init).
    { split; [|by left]. intros t. cbn. rewrite elem_of_empty. lia. }
    revert H0. generalize Finder.init.
    induction rs as [|r rs IH]; intros s Hs; [done|].
    apply (IH (snd (Finder.serve r s))). by apply finder_serve_tidy. }
  destruct H as [Hc Ht]. split; [done|].
  intros Hr. rewrite Hr in Hc.
  destruct Ht as [(_ & _ & Hoff)|[Ht Hle]]; [congruence|].
  split; [done|]. intros t. rewrite Ht at 1. rewrite elem_of_seq, Hc. lia.
Qed.

(** X16. A start request served during the pause of a stop request
    leaves the switch stuck. From any state: the stop clears the flag,
    the start sets it and registers five new tasks, and the stop, when it
    resumes, calls [cancel] on exactly those five and on none of the
    tasks it was meant for. The status then reads "Running: True", every
    registered task is cancelled, and a further start is refused as
    "Already running". *)
Theorem finder_stop_overtaken (s : Finder.State) :
  Finder.running
    (snd (Finder.stop_end
            (snd (Finder.start_finder (Finder.stop_begin s))))) = true ∧
  Finder.tasks
    (snd (Finder.stop_end
            (snd (Finder.start_finder (Finder.stop_begin s)))))
  = seq (Finder.created s) 5 ∧
  Finder.cancelled
    (snd (Finder.stop_end
            (snd (Finder.start_finder (Finder.stop_begin s)))))
  = Finder.cancelled s ∪ list_to_set (seq (Finder.created s) 5) ∧
  (∀ t, t ∈ Finder.tasks
              (snd (Finder.stop_end
                      (snd (Finder.start_finder (Finder.stop_begin s))))) →
        t ∈ Finder.cancelled
              (snd (Finder.stop_end
                      (snd (Finder.start_finder (Finder.stop_begin s)))))) ∧
  Finder.handle_status
    (snd (Finder.stop_end
            (snd (Finder.start_finder (Finder.stop_begin s)))))
  = "Running: True" ∧
  Finder.start_finder
    (snd (Finder.stop_end
            (snd (Finder.start_finder (Finder.stop_begin s)))))
  = ("Already running",
     snd (Finder.stop_end
            (snd (Finder.start_finder (Finder.stop_begin s))))).
Proof.
  unfold Finder.stop_end, Finder.start_finder, Finder.stop_begin,
    Finder.handle_status.
  cbn [Finder.tasks Finder.created Finder.running Finder.cancelled fst snd].
  repeat split.
  intros t Ht. apply elem_of_union. right. by apply elem_of_list_to_set.
Qed.

(** X17. A group is taken as available only on an answer that is a
    dictionary in which [publicEntryAllowed] is present and true in
    Python's sense, [owner] is absent or null, and [isLocked] is present
    and false in Python's sense. In particular a failed request, an
    answer that is no dictionary, and an answer that does not mention
    [isLocked] never count as a hit. *)
Theorem hit_needs_unlocked_field (fetched : option Finder.value) :
  (Finder.is_group_available fetched = true ↔
   ∃ group_data allowed locked,
     fetched = Some (Finder.VDict group_data) ∧
     Finder.get "publicEntryAllowed" group_data = Some allowed ∧
     Finder.truthy allowed = true ∧
     Finder.is_None (Finder.get "owner" group_data) = true ∧
     Finder.get "isLocked" group_data = Some locked ∧
     Finder.truthy locked = false) ∧
  Finder.is_group_available None = false ∧
  (∀ group_data,
     Finder.get "isLocked" group_data = None →
     Finder.is_group_available (Some (Finder.VDict group_data)) = false).
Proof.
  split; [|split; [done|]].
  - destruct fetched as [[| | | | |group_data]|]; cbn;
      try (split; [discriminate | by intros (? & ? & ? & [=] & _)]).
    split.
    + intros H. apply andb_true_iff in H as [H Hl].
      apply andb_true_iff in H as [Ha Ho].
      destruct (Finder.get "publicEntryAllowed" group_data) as [a|] eqn:Ea;
        [|discriminate].
      destruct (Finder.get "isLocked" group_data) as [l|] eqn:El;
        [|discriminate].
      cbn in Ha, Hl. apply negb_true_iff in Hl.
      exists group_data, a, l. repeat split; done.
    + intros (g & a & l & [= <-] & -> & Ha & -> & -> & Hl).
      cbn. by rewrite Ha, Hl.
  - intros group_data H. cbn. rewrite H. cbn.
    by rewrite andb_false_r.
Qed.

Lemma hit_needs_unlocked_field_witness :
  Finder.get "isLocked"
    [("publicEntryAllowed", Finder.VBool true); ("owner", Finder.VNull)]
  = None ∧
  Finder.is_group_available
    (Some (Finder.VDict
             [("publicEntryAllowed", Finder.VBool true);
              ("owner", Finder.VNull)]))
  = false ∧
  Finder.is_group_available
    (Some (Finder.VDict
             [("publicEntryAllowed", Finder.VBool true);
              ("owner", Finder.VNull); ("isLocked", Finder.VBool false)]))
  = true.
Proof.
  split; [reflexivity|]. split.
  - exact (proj2 (proj2 (hit_needs_unlocked_field None))
             [("publicEntryAllowed", Finder.VBool true);
              ("owner", Finder.VNull)] eq_refl).
  - apply (proj1 (hit_needs_unlocked_field _)).
    eexists _, _, _. repeat split; reflexivity.
Defined.
